(** * Lim-Code: the streaming session and message-reconciliation core

    A shallow embedding of
    - [StreamAbortManager] (the registry of cancellation controllers),
    - the chat store's message actions ([sendMessage], [retryFromMessage],
      [editAndRetry], [deleteMessage]) and
    - the stream dispatcher [handleStreamChunk],
    followed by the properties the specification states about them. *)

From stdpp Require Import base option list strings gmap.
From Stdlib Require Import ZArith.

Local Open Scope string_scope.
Local Open Scope Z_scope.
Local Open Scope list_scope.

(** ** JavaScript values

    Strings are sequences of 8-bit code units (the Latin-1 part of the
    UTF-16 code units of a JavaScript string).  A nullable string
    ([string | null]) is an [option string]. *)
Module Js.

(** [Boolean(s)]: every string but the empty one is truthy. *)
Definition truthy (s : string) : bool :=
  match s with
  | EmptyString => false
  | String _ _ => true
  end.

(** [Boolean(v)] for [v : string | null | undefined]. *)
Definition truthy_opt (v : option string) : bool :=
  match v with
  | None => false
  | Some s => truthy s
  end.

(** [v || dflt] for [v : string | undefined]. *)
Definition or_else (v : option string) (dflt : string) : string :=
  match v with
  | Some s => if truthy s then s else dflt
  | None => dflt
  end.

(** [v || undefined] for [v : string | null]. *)
Definition or_undefined (v : option string) : option string :=
  if truthy_opt v then v else None.

(** The white space and line terminators [String.prototype.trim]
    strips, among the code units below 256: TAB, LF, VT, FF, CR, SP and
    NBSP. *)
Definition is_white_space (a : Ascii.ascii) : bool :=
  let n := Ascii.nat_of_ascii a in
  (Nat.eqb n 9 || Nat.eqb n 10 || Nat.eqb n 11 || Nat.eqb n 12
   || Nat.eqb n 13 || Nat.eqb n 32 || Nat.eqb n 160)%bool.

Fixpoint trimStart (s : string) : string :=
  match s with
  | EmptyString => EmptyString
  | String a s' => if is_white_space a then trimStart s' else s
  end.

Definition reverse (s : string) : string :=
  String.string_of_list_ascii (rev (String.list_ascii_of_string s)).

Definition trimEnd (s : string) : string :=
  reverse (trimStart (reverse s)).

(** [s.trim()] *)
Definition trim (s : string) : string := trimEnd (trimStart s).

(** [s.slice(0, n)] for a literal [n >= 0]. *)
Definition slice_to (n : nat) (s : string) : string := String.substring 0 n s.

(** [a.slice(0, e)] on an array: a negative [e] counts from the end. *)
Definition array_slice_to {A} (e : Z) (a : list A) : list A :=
  if (e <? 0)%Z
  then take (Z.to_nat (Z.max 0 (Z.of_nat (length a) + e))) a
  else take (Z.to_nat e) a.

(** [a[i]] on an array: [undefined] out of range. *)
Definition array_get {A} (i : Z) (a : list A) : option A :=
  if (i <? 0)%Z then None else a !! Z.to_nat i.

(** The settled state of an awaited promise. *)
Record Error := { err_code : option string; err_message : option string }.

Inductive Settled (A : Type) : Type :=
| Resolved (a : A)
| Rejected (e : Error).
Arguments Resolved {A} a.
Arguments Rejected {A} e.

(** A value whose TypeScript type is not among the sources (the
    optional payload fields of a stream chunk). *)
Inductive Value :=
| Undefined
| Null
| Boolean (b : bool)
| Number (n : Z)
| Str (s : string)
| Object (fields : Fields)
with Fields :=
| NoFields
| Field (key : string) (v : Value) (rest : Fields).

(** [Boolean(v)]: [undefined], [null], [false], [0] and the empty
    string are falsy, every object is truthy. *)
Definition truthy_value (v : Value) : bool :=
  match v with
  | Undefined | Null => false
  | Boolean b => b
  | Number n => negb (n =? 0)%Z        (* integers only: no [NaN] *)
  | Str s => truthy s
  | Object _ => true
  end.

End Js.

(** ** [Map<string, V>]

    A JavaScript [Map] iterates in insertion order and holds a key once:
    the entries are a list without repeated keys ([wf]). *)
Module JsMap.
Section Ops.
Context {V : Type}.

Definition t := list (string * V).

Definition wf (m : t) : Prop := NoDup m.*1.

Fixpoint get (k : string) (m : t) : option V :=
  match m with
  | [] => None
  | (k', v) :: m' => if String.eqb k' k then Some v else get k m'
  end.

(** [m.set(k, v)]: an existing key keeps its place, a new one goes last. *)
Fixpoint set (k : string) (v : V) (m : t) : t :=
  match m with
  | [] => [(k, v)]
  | (k', v') :: m' =>
      if String.eqb k' k then (k, v) :: m' else (k', v') :: set k v m'
  end.

(** [m.delete(k)]: removes the entry of [k]. *)
Fixpoint delete (k : string) (m : t) : t :=
  match m with
  | [] => []
  | (k', v) :: m' =>
      if String.eqb k' k then m' else (k', v) :: delete k m'
  end.

Definition clear (m : t) : t := [].

Definition size (m : t) : nat := length m.
End Ops.
Arguments t : clear implicits.
End JsMap.

(** ** StreamAbortManager

    An [AbortController] is an object the manager shares with whoever
    called [create]: the model names each controller by a number and keeps
    the set of controllers whose signal is aborted beside the map. *)
Module StreamAbortManager.

Definition AbortController := nat.

Record State := {
  controllers : JsMap.t AbortController;
  aborted : gset AbortController;   (* [signal.aborted] of every controller *)
  allocated : nat                   (* controllers made so far *)
}.

Definition empty : State :=
  {| controllers := []; aborted := ∅; allocated := 0 |}.

(** [controller.abort()] *)
Definition abort (c : AbortController) (s : State) : State :=
  {| controllers := controllers s;
     aborted := {[ c ]} ∪ aborted s;
     allocated := allocated s |}.

Definition with_controllers (m : JsMap.t AbortController) (s : State) : State :=
  {| controllers := m; aborted := aborted s; allocated := allocated s |}.

Definition create (conversationId : string) (s : State) : AbortController * State :=
  let controller := allocated s in
  (controller,
   {| controllers := JsMap.set conversationId controller (controllers s);
      aborted := aborted s;
      allocated := S (allocated s) |}).

Definition get (conversationId : string) (s : State) : option AbortController :=
  JsMap.get conversationId (controllers s).

Definition cancel (conversationId : string) (s : State) : bool * State :=
  match JsMap.get conversationId (controllers s) with
  | Some controller =>
      let s := abort controller s in
      let s := with_controllers (JsMap.delete conversationId (controllers s)) s in
      (true, s)
  | None => (false, s)
  end.

Definition delete (conversationId : string) (s : State) : State :=
  with_controllers (JsMap.delete conversationId (controllers s)) s.

Definition size (s : State) : nat := JsMap.size (controllers s).

Definition wf (s : State) : Prop := JsMap.wf (controllers s).

(** The message [cancelAll] posts for one conversation. *)
Record WebviewMessage := {
  wm_type : string;
  wm_data_conversationId : string;
  wm_data_type : string
}.

Section CancelAll.
(** The webview is an external sink: [postMessage] either delivers or
    throws, and leaves the view in some state either way. *)
Context {View : Type}.

Inductive Posted : Type :=
| Delivered (v : View)
| Threw (v : View).

Variable postMessage : WebviewMessage → View → Posted.

(** [try { view?.webview.postMessage(..) } catch { }] *)
Definition notify (conversationId : string) (view : option View) : option View :=
  match view with
  | None => None
  | Some v =>
      match postMessage {| wm_type := "streamChunk";
                           wm_data_conversationId := conversationId;
                           wm_data_type := "cancelled" |} v with
      | Delivered v' => Some v'
      | Threw v' => Some v'            (* ignored *)
      end
  end.

(** The [for (const [conversationId, controller] of this.controllers)] loop. *)
Fixpoint cancelAll_loop (entries : list (string * AbortController))
    (view : option View) (s : State) : State * option View :=
  match entries with
  | [] => (s, view)
  | (conversationId, controller) :: rest =>
      let s := abort controller s in
      let view := notify conversationId view in
      cancelAll_loop rest view s
  end.

Definition cancelAll (view : option View) (s : State) : State * option View :=
  let '(s, view) := cancelAll_loop (controllers s) view s in
  (with_controllers (JsMap.clear (controllers s)) s, view).
End CancelAll.

End StreamAbortManager.

(** ** The chat store

    The refs of [ChatStoreState] the message actions and the stream
    dispatcher read or assign. *)
Module ChatStore.

Inductive Role := user | assistant.

Record Attachment := {
  att_id : string;
  att_name : string;
  att_type : string;
  att_size : Z;
  att_mimeType : string;
  att_data : option string;
  att_thumbnail : option string
}.

Record ContentPart := { part_text : string }.

Record MessageMetadata := { modelVersion : string }.

Record Message := {
  msg_id : string;
  msg_role : Role;
  msg_content : string;
  msg_timestamp : Z;
  msg_attachments : option (list Attachment);
  msg_streaming : option bool;
  msg_metadata : option MessageMetadata;
  msg_parts : option (list ContentPart)
}.

Record CheckpointRecord := {
  cp_id : string;
  cp_conversationId : string;
  cp_messageIndex : Z
}.

Record ErrorInfo := { code : string; message : string }.

Record Conversation := {
  conv_id : string;
  conv_title : string;
  conv_createdAt : Z;
  conv_updatedAt : Z;
  conv_messageCount : Z;
  conv_preview : option string;
  conv_isPersisted : bool;
  conv_workspaceUri : option string
}.

Record ChatStoreState := {
  currentConversationId : option string;
  allMessages : list Message;
  checkpoints : list CheckpointRecord;
  error : option ErrorInfo;
  isLoading : bool;
  isStreaming : bool;
  isWaitingForResponse : bool;
  streamingMessageId : option string;
  toolCallBuffer : string;
  inToolCall : option string;
  processedDiffTools : JsMap.t string;
  handledDiffIds : list string;
  handledFilePaths : JsMap.t string;
  pendingDiffToolIds : list string;
  pendingAnnotation : string;
  conversations : list Conversation;
  configId : string;
  currentWorkspaceUri : option string
}.

(** Assignments to the refs of the store, [state.x.value = v]. *)
Definition set_currentConversationId (v : option string) (s : ChatStoreState) : ChatStoreState :=
  Build_ChatStoreState v (allMessages s) (checkpoints s) (error s)
    (isLoading s) (isStreaming s) (isWaitingForResponse s)
    (streamingMessageId s) (toolCallBuffer s) (inToolCall s)
    (processedDiffTools s) (handledDiffIds s) (handledFilePaths s)
    (pendingDiffToolIds s) (pendingAnnotation s) (conversations s)
    (configId s) (currentWorkspaceUri s).

Definition set_allMessages (v : list Message) (s : ChatStoreState) : ChatStoreState :=
  Build_ChatStoreState (currentConversationId s) v (checkpoints s)
    (error s) (isLoading s) (isStreaming s) (isWaitingForResponse s)
    (streamingMessageId s) (toolCallBuffer s) (inToolCall s)
    (processedDiffTools s) (handledDiffIds s) (handledFilePaths s)
    (pendingDiffToolIds s) (pendingAnnotation s) (conversations s)
    (configId s) (currentWorkspaceUri s).

Definition set_checkpoints (v : list CheckpointRecord) (s : ChatStoreState) : ChatStoreState :=
  Build_ChatStoreState (currentConversationId s) (allMessages s) v
    (error s) (isLoading s) (isStreaming s) (isWaitingForResponse s)
    (streamingMessageId s) (toolCallBuffer s) (inToolCall s)
    (processedDiffTools s) (handledDiffIds s) (handledFilePaths s)
    (pendingDiffToolIds s) (pendingAnnotation s) (conversations s)
    (configId s) (currentWorkspaceUri s).

Definition set_error (v : option ErrorInfo) (s : ChatStoreState) : ChatStoreState :=
  Build_ChatStoreState (currentConversationId s) (allMessages s)
    (checkpoints s) v (isLoading s) (isStreaming s)
    (isWaitingForResponse s) (streamingMessageId s) (toolCallBuffer s)
    (inToolCall s) (processedDiffTools s) (handledDiffIds s)
    (handledFilePaths s) (pendingDiffToolIds s) (pendingAnnotation s)
    (conversations s) (configId s) (currentWorkspaceUri s).

Definition set_isLoading (v : bool) (s : ChatStoreState) : ChatStoreState :=
  Build_ChatStoreState (currentConversationId s) (allMessages s)
    (checkpoints s) (error s) v (isStreaming s) (isWaitingForResponse s)
    (streamingMessageId s) (toolCallBuffer s) (inToolCall s)
    (processedDiffTools s) (handledDiffIds s) (handledFilePaths s)
    (pendingDiffToolIds s) (pendingAnnotation s) (conversations s)
    (configId s) (currentWorkspaceUri s).

Definition set_isStreaming (v : bool) (s : ChatStoreState) : ChatStoreState :=
  Build_ChatStoreState (currentConversationId s) (allMessages s)
    (checkpoints s) (error s) (isLoading s) v (isWaitingForResponse s)
    (streamingMessageId s) (toolCallBuffer s) (inToolCall s)
    (processedDiffTools s) (handledDiffIds s) (handledFilePaths s)
    (pendingDiffToolIds s) (pendingAnnotation s) (conversations s)
    (configId s) (currentWorkspaceUri s).

Definition set_isWaitingForResponse (v : bool) (s : ChatStoreState) : ChatStoreState :=
  Build_ChatStoreState (currentConversationId s) (allMessages s)
    (checkpoints s) (error s) (isLoading s) (isStreaming s) v
    (streamingMessageId s) (toolCallBuffer s) (inToolCall s)
    (processedDiffTools s) (handledDiffIds s) (handledFilePaths s)
    (pendingDiffToolIds s) (pendingAnnotation s) (conversations s)
    (configId s) (currentWorkspaceUri s).

Definition set_streamingMessageId (v : option string) (s : ChatStoreState) : ChatStoreState :=
  Build_ChatStoreState (currentConversationId s) (allMessages s)
    (checkpoints s) (error s) (isLoading s) (isStreaming s)
    (isWaitingForResponse s) v (toolCallBuffer s) (inToolCall s)
    (processedDiffTools s) (handledDiffIds s) (handledFilePaths s)
    (pendingDiffToolIds s) (pendingAnnotation s) (conversations s)
    (configId s) (currentWorkspaceUri s).

Definition set_toolCallBuffer (v : string) (s : ChatStoreState) : ChatStoreState :=
  Build_ChatStoreState (currentConversationId s) (allMessages s)
    (checkpoints s) (error s) (isLoading s) (isStreaming s)
    (isWaitingForResponse s) (streamingMessageId s) v (inToolCall s)
    (processedDiffTools s) (handledDiffIds s) (handledFilePaths s)
    (pendingDiffToolIds s) (pendingAnnotation s) (conversations s)
    (configId s) (currentWorkspaceUri s).

Definition set_inToolCall (v : option string) (s : ChatStoreState) : ChatStoreState :=
  Build_ChatStoreState (currentConversationId s) (allMessages s)
    (checkpoints s) (error s) (isLoading s) (isStreaming s)
    (isWaitingForResponse s) (streamingMessageId s) (toolCallBuffer s) v
    (processedDiffTools s) (handledDiffIds s) (handledFilePaths s)
    (pendingDiffToolIds s) (pendingAnnotation s) (conversations s)
    (configId s) (currentWorkspaceUri s).

Definition set_processedDiffTools (v : JsMap.t string) (s : ChatStoreState) : ChatStoreState :=
  Build_ChatStoreState (currentConversationId s) (allMessages s)
    (checkpoints s) (error s) (isLoading s) (isStreaming s)
    (isWaitingForResponse s) (streamingMessageId s) (toolCallBuffer s)
    (inToolCall s) v (handledDiffIds s) (handledFilePaths s)
    (pendingDiffToolIds s) (pendingAnnotation s) (conversations s)
    (configId s) (currentWorkspaceUri s).

Definition set_handledDiffIds (v : list string) (s : ChatStoreState) : ChatStoreState :=
  Build_ChatStoreState (currentConversationId s) (allMessages s)
    (checkpoints s) (error s) (isLoading s) (isStreaming s)
    (isWaitingForResponse s) (streamingMessageId s) (toolCallBuffer s)
    (inToolCall s) (processedDiffTools s) v (handledFilePaths s)
    (pendingDiffToolIds s) (pendingAnnotation s) (conversations s)
    (configId s) (currentWorkspaceUri s).

Definition set_handledFilePaths (v : JsMap.t string) (s : ChatStoreState) : ChatStoreState :=
  Build_ChatStoreState (currentConversationId s) (allMessages s)
    (checkpoints s) (error s) (isLoading s) (isStreaming s)
    (isWaitingForResponse s) (streamingMessageId s) (toolCallBuffer s)
    (inToolCall s) (processedDiffTools s) (handledDiffIds s) v
    (pendingDiffToolIds s) (pendingAnnotation s) (conversations s)
    (configId s) (currentWorkspaceUri s).

Definition set_pendingDiffToolIds (v : list string) (s : ChatStoreState) : ChatStoreState :=
  Build_ChatStoreState (currentConversationId s) (allMessages s)
    (checkpoints s) (error s) (isLoading s) (isStreaming s)
    (isWaitingForResponse s) (streamingMessageId s) (toolCallBuffer s)
    (inToolCall s) (processedDiffTools s) (handledDiffIds s)
    (handledFilePaths s) v (pendingAnnotation s) (conversations s)
    (configId s) (currentWorkspaceUri s).

Definition set_pendingAnnotation (v : string) (s : ChatStoreState) : ChatStoreState :=
  Build_ChatStoreState (currentConversationId s) (allMessages s)
    (checkpoints s) (error s) (isLoading s) (isStreaming s)
    (isWaitingForResponse s) (streamingMessageId s) (toolCallBuffer s)
    (inToolCall s) (processedDiffTools s) (handledDiffIds s)
    (handledFilePaths s) (pendingDiffToolIds s) v (conversations s)
    (configId s) (currentWorkspaceUri s).

Definition set_conversations (v : list Conversation) (s : ChatStoreState) : ChatStoreState :=
  Build_ChatStoreState (currentConversationId s) (allMessages s)
    (checkpoints s) (error s) (isLoading s) (isStreaming s)
    (isWaitingForResponse s) (streamingMessageId s) (toolCallBuffer s)
    (inToolCall s) (processedDiffTools s) (handledDiffIds s)
    (handledFilePaths s) (pendingDiffToolIds s) (pendingAnnotation s) v
    (configId s) (currentWorkspaceUri s).
Record ChatStoreComputed := { currentModelName : string }.

(** [state.allMessages.value.push(m)] *)
Definition push_message (m : Message) (s : ChatStoreState) : ChatStoreState :=
  set_allMessages (allMessages s ++ [m]) s.

(** [state.allMessages.value.length] *)
Definition messageCount (s : ChatStoreState) : Z :=
  Z.of_nat (length (allMessages s)).

(** The streaming placeholder every turn starts with. *)
Definition placeholder (computed : ChatStoreComputed)
    (assistantMessageId : string) (timestamp : Z) : Message :=
  {| msg_id := assistantMessageId;
     msg_role := assistant;
     msg_content := "";
     msg_timestamp := timestamp;
     msg_attachments := None;
     msg_streaming := Some true;
     msg_metadata := Some {| modelVersion := currentModelName computed |};
     msg_parts := None |}.

(** [messageIndex < 0 || messageIndex >= state.allMessages.value.length] *)
Definition out_of_range (messageIndex : Z) (s : ChatStoreState) : bool :=
  (messageIndex <? 0)%Z || (messageCount s <=? messageIndex)%Z.

End ChatStore.

(** ** Requests to the extension host ([sendToExtension]) *)
Module Extension.
Import ChatStore.

Record AttachmentData := {
  ad_id : string;
  ad_name : string;
  ad_type : string;
  ad_size : Z;
  ad_mimeType : string;
  ad_data : string;
  ad_thumbnail : option string
}.

(** One constructor per message type the actions send, with its payload. *)
Inductive Request :=
| Req_createConversation (conversationId title : string) (workspaceUri : option string)
| Req_chatStream (conversationId : option string) (configId message : string)
    (attachments : option (list AttachmentData))
| Req_deleteMessage (conversationId : option string) (targetIndex : Z)
| Req_retryStream (conversationId : option string) (configId : string)
| Req_editAndRetryStream (conversationId : option string) (messageIndex : Z)
    (newMessage : string) (attachments : option (list AttachmentData))
    (configId : string).

Record Response := { success : bool; deletedCount : Z }.

(** What an action cannot compute itself: the ids and times it draws
    and the way each request settles.  Every [await] is one step: no
    other event of the store is handled while an action is suspended. *)
Record Env := {
  generateId : nat → string;       (* the n-th [generateId()] of the action *)
  Date_now : nat → Z;              (* the n-th [Date.now()] of the action *)
  newConversationId : string;      (* [`conv_${Date.now()}_${random}`] *)
  sendToExtension : Request → Js.Settled Response
}.

(** The request that starts a turn is rejected with [err]. *)
Definition dispatch_rejects (env : Env) (err : Js.Error) : Prop :=
  ∀ conversationId configId message attachments,
    sendToExtension env (Req_chatStream conversationId configId message attachments)
    = Js.Rejected err.

(** A new conversation gets a non-empty id and its creation resolves. *)
Definition creation_resolves (env : Env) : Prop :=
  Js.truthy (newConversationId env) = true
  ∧ ∀ conversationId title workspaceUri, ∃ response,
      sendToExtension env (Req_createConversation conversationId title workspaceUri)
      = Js.Resolved response.

Definition toAttachmentData (att : Attachment) : AttachmentData :=
  {| ad_id := att_id att;
     ad_name := att_name att;
     ad_type := att_type att;
     ad_size := att_size att;
     ad_mimeType := att_mimeType att;
     ad_data := Js.or_else (att_data att) "";
     ad_thumbnail := att_thumbnail att |}.
End Extension.

(** ** conversationActions.ts: [createAndPersistConversation] *)
Module ConversationActions.
Import ChatStore Extension.

Definition createAndPersistConversation (env : Env) (firstMessage : string)
    (state : ChatStoreState) : option string * ChatStoreState * list Request :=
  let id := newConversationId env in
  let title :=
    Js.slice_to 30 firstMessage
    +:+ (if (30 <? String.length firstMessage)%nat then "..." else "") in
  let request :=
    Req_createConversation id title (Js.or_undefined (currentWorkspaceUri state)) in
  match sendToExtension env request with
  | Js.Resolved _ =>
      let newConversation :=
        {| conv_id := id;
           conv_title := title;
           conv_createdAt := Date_now env 0%nat;
           conv_updatedAt := Date_now env 1%nat;
           conv_messageCount := 0;
           conv_preview := None;
           conv_isPersisted := true;
           conv_workspaceUri := Js.or_undefined (currentWorkspaceUri state) |} in
      let state := set_conversations (newConversation :: conversations state) state in
      let state := set_currentConversationId (Some id) state in
      (Some id, state, [request])
  | Js.Rejected _ => (None, state, [request])
  end.
End ConversationActions.

(** ** checkpointActions.ts *)
Module CheckpointActions.
Import ChatStore.

(** Modelled from the spec: [clearCheckpointsFromIndex], which
    [messageActions.ts] imports from [checkpointActions.ts]; that file is
    not among the sources.  The spec's data model has a checkpoint list
    "truncated (all checkpoints at or after a message index removed)",
    and the actions "remove checkpoints at or after [index]": the
    checkpoints below the index are kept, in their order. *)
Definition clearCheckpointsFromIndex (fromIndex : Z) (state : ChatStoreState)
    : ChatStoreState :=
  set_checkpoints
    (List.filter (λ cp, (cp_messageIndex cp <? fromIndex)%Z) (checkpoints state))
    state.
End CheckpointActions.

(** ** messageActions.ts *)
Module MessageActions.
Import ChatStore Extension ConversationActions CheckpointActions.

(** [cancelStream: () => Promise<void>]: the caller's callback, which
    acts on the store; it is taken to resolve. *)
Definition CancelStreamCallback := ChatStoreState → ChatStoreState.

(** [!attachments || attachments.length === 0] *)
Definition no_attachments (attachments : option (list Attachment)) : bool :=
  match attachments with
  | None => true
  | Some l => Nat.eqb (length l) 0
  end.

(** [attachments && attachments.length > 0 ? attachments : undefined] *)
Definition attachments_or_undefined (attachments : option (list Attachment))
    : option (list Attachment) :=
  if no_attachments attachments then None else attachments.

(** [attachments && attachments.length > 0 ? attachments.map(..) : undefined] *)
Definition attachmentData (attachments : option (list Attachment))
    : option (list AttachmentData) :=
  match attachments with
  | None => None
  | Some l => if Nat.eqb (length l) 0 then None else Some (map toAttachmentData l)
  end.

(** [!messageText.trim() && (!attachments || attachments.length === 0)] *)
Definition nothing_to_send (messageText : string)
    (attachments : option (list Attachment)) : bool :=
  negb (Js.truthy (Js.trim messageText)) && no_attachments attachments.

(** The body of a [catch (err)] block of the stream actions. *)
Definition catch_dispatch (dfltCode dfltMessage : string) (err : Js.Error)
    (state : ChatStoreState) : ChatStoreState :=
  if isStreaming state then
    let state :=
      set_error (Some {| code := Js.or_else (Js.err_code err) dfltCode;
                         message := Js.or_else (Js.err_message err) dfltMessage |})
                state in
    let state := set_streamingMessageId None state in
    let state := set_isStreaming false state in
    set_isWaitingForResponse false state
  else state.

(** [const conv = state.conversations.value.find(..); if (conv) {..}]:
    the first conversation with the id is updated in place. *)
Fixpoint touch_conversation (id : option string) (updatedAt count : Z)
    (preview : string) (convs : list Conversation) : list Conversation :=
  match convs with
  | [] => []
  | c :: rest =>
      if bool_decide (Some (conv_id c) = id) then
        {| conv_id := conv_id c;
           conv_title := conv_title c;
           conv_createdAt := conv_createdAt c;
           conv_updatedAt := updatedAt;
           conv_messageCount := count;
           conv_preview := Some preview;
           conv_isPersisted := conv_isPersisted c;
           conv_workspaceUri := conv_workspaceUri c |} :: rest
      else c :: touch_conversation id updatedAt count preview rest
  end.

(** The [try] block of [sendMessage]: how it ends, the store and the
    requests sent. *)
Definition sendMessage_try (env : Env) (computed : ChatStoreComputed)
    (messageText : string) (attachments : option (list Attachment))
    (state : ChatStoreState) : Js.Settled unit * ChatStoreState * list Request :=
  let '(created, state, sent) :=
    if negb (Js.truthy_opt (currentConversationId state)) then
      let '(newId, state, sent) :=
        createAndPersistConversation env messageText state in
      (Js.truthy_opt newId, state, sent)
    else (true, state, []) in
  if negb created then
    (Js.Rejected {| Js.err_code := None;
                    Js.err_message := Some "Failed to create conversation" |},
     state, sent)
  else
    let userMessage :=
      {| msg_id := generateId env 0%nat;
         msg_role := user;
         msg_content := messageText;
         msg_timestamp := Date_now env 2%nat;
         msg_attachments := attachments_or_undefined attachments;
         msg_streaming := None;
         msg_metadata := None;
         msg_parts := None |} in
    let state := push_message userMessage state in
    let assistantMessageId := generateId env 1%nat in
    let assistantMessage := placeholder computed assistantMessageId (Date_now env 3%nat) in
    let state := push_message assistantMessage state in
    let state := set_streamingMessageId (Some assistantMessageId) state in
    let state :=
      set_conversations
        (touch_conversation (currentConversationId state) (Date_now env 4%nat)
           (messageCount state) (Js.slice_to 50 messageText)
           (conversations state))
        state in
    let state := set_toolCallBuffer "" state in
    let state := set_inToolCall None state in
    let request :=
      Req_chatStream (currentConversationId state) (configId state) messageText
        (attachmentData attachments) in
    match sendToExtension env request with
    | Js.Resolved _ => (Js.Resolved (), state, sent ++ [request])
    | Js.Rejected err => (Js.Rejected err, state, sent ++ [request])
    end.

Definition sendMessage (env : Env) (computed : ChatStoreComputed)
    (messageText : string) (attachments : option (list Attachment))
    (state : ChatStoreState) : ChatStoreState * list Request :=
  if nothing_to_send messageText attachments then (state, [])
  else
    let state := set_error None state in
    if isWaitingForResponse state then (state, [])
    else
      let state := set_isLoading true state in
      let state := set_isStreaming true state in
      let state := set_isWaitingForResponse true state in
      let '(settled, state, sent) :=
        sendMessage_try env computed messageText attachments state in
      let state :=
        match settled with
        | Js.Resolved _ => state
        | Js.Rejected err =>
            catch_dispatch "SEND_ERROR" "Failed to send message" err state
        end in
      (set_isLoading false state, sent).

Definition retryFromMessage (env : Env) (computed : ChatStoreComputed)
    (messageIndex : Z) (cancelStream : CancelStreamCallback)
    (state : ChatStoreState) : ChatStoreState * list Request :=
  if negb (Js.truthy_opt (currentConversationId state))
     || Nat.eqb (length (allMessages state)) 0
  then (state, [])
  else if out_of_range messageIndex state then (state, [])
  else
    let state := if isStreaming state then cancelStream state else state in
    let state := set_error None state in
    let state := set_isLoading true state in
    let state := set_isStreaming true state in
    let state := set_isWaitingForResponse true state in
    let state :=
      set_allMessages (Js.array_slice_to messageIndex (allMessages state)) state in
    let state := clearCheckpointsFromIndex messageIndex state in
    (* try { await sendToExtension('deleteMessage', ..) } catch: logged only *)
    let deletion := Req_deleteMessage (currentConversationId state) messageIndex in
    let state :=
      match sendToExtension env deletion with
      | Js.Resolved _ => state
      | Js.Rejected _ => state
      end in
    let state := set_toolCallBuffer "" state in
    let state := set_inToolCall None state in
    let state := set_processedDiffTools [] state in
    let state := set_handledDiffIds [] state in
    let state := set_handledFilePaths [] state in
    let state := set_pendingDiffToolIds [] state in
    let state := set_pendingAnnotation "" state in
    let assistantMessageId := generateId env 0%nat in
    let assistantMessage := placeholder computed assistantMessageId (Date_now env 0%nat) in
    let state := push_message assistantMessage state in
    let state := set_streamingMessageId (Some assistantMessageId) state in
    let request := Req_retryStream (currentConversationId state) (configId state) in
    let state :=
      match sendToExtension env request with
      | Js.Resolved _ => state
      | Js.Rejected err => catch_dispatch "RETRY_ERROR" "Retry failed" err state
      end in
    (set_isLoading false state, [deletion; request]).

(** [targetMessage.content = ..; targetMessage.parts = ..;
    targetMessage.attachments = ..] *)
Definition edit_message (newMessage : string)
    (attachments : option (list Attachment)) (m : Message) : Message :=
  {| msg_id := msg_id m;
     msg_role := msg_role m;
     msg_content := newMessage;
     msg_timestamp := msg_timestamp m;
     msg_attachments := attachments_or_undefined attachments;
     msg_streaming := msg_streaming m;
     msg_metadata := msg_metadata m;
     msg_parts := Some [ {| part_text := newMessage |} ] |}.

(** [editAndRetry] rejects when the message at [messageIndex] is gone
    after [cancelStream] ([targetMessage] is [undefined] and the
    assignment to its [content] throws outside any [try]). *)
Definition editAndRetry (env : Env) (computed : ChatStoreComputed)
    (messageIndex : Z) (newMessage : string)
    (attachments : option (list Attachment)) (cancelStream : CancelStreamCallback)
    (state : ChatStoreState) : Js.Settled unit * ChatStoreState * list Request :=
  if nothing_to_send newMessage attachments
     || negb (Js.truthy_opt (currentConversationId state))
  then (Js.Resolved (), state, [])
  else if out_of_range messageIndex state then (Js.Resolved (), state, [])
  else
    let state := if isStreaming state then cancelStream state else state in
    let state := set_error None state in
    let state := set_isLoading true state in
    let state := set_isStreaming true state in
    let state := set_isWaitingForResponse true state in
    match Js.array_get messageIndex (allMessages state) with
    | None =>
        (Js.Rejected {| Js.err_code := None;
                        Js.err_message := Some "Cannot set properties of undefined (setting 'content')" |}, state, [])
    | Some targetMessage =>
        let state :=
          set_allMessages
            (<[ Z.to_nat messageIndex := edit_message newMessage attachments targetMessage ]>
               (allMessages state))
            state in
        let state :=
          set_allMessages
            (Js.array_slice_to (messageIndex + 1) (allMessages state)) state in
        let state := clearCheckpointsFromIndex messageIndex state in
        let state := set_toolCallBuffer "" state in
        let state := set_inToolCall None state in
        let assistantMessageId := generateId env 0%nat in
        let assistantMessage :=
          placeholder computed assistantMessageId (Date_now env 0%nat) in
        let state := push_message assistantMessage state in
        let state := set_streamingMessageId (Some assistantMessageId) state in
        let request :=
          Req_editAndRetryStream (currentConversationId state) messageIndex
            newMessage (attachmentData attachments) (configId state) in
        let state :=
          match sendToExtension env request with
          | Js.Resolved _ => state
          | Js.Rejected err =>
              catch_dispatch "EDIT_RETRY_ERROR" "Edit and retry failed" err state
          end in
        (Js.Resolved (), set_isLoading false state, [request])
    end.

Definition deleteMessage (env : Env) (targetIndex : Z)
    (cancelStream : CancelStreamCallback) (state : ChatStoreState)
    : ChatStoreState * list Request :=
  if negb (Js.truthy_opt (currentConversationId state)) then (state, [])
  else if out_of_range targetIndex state then (state, [])
  else
    let state := if isStreaming state then cancelStream state else state in
    let request := Req_deleteMessage (currentConversationId state) targetIndex in
    let state :=
      match sendToExtension env request with
      | Js.Resolved response =>
          if success response then
            let state :=
              set_allMessages
                (Js.array_slice_to targetIndex (allMessages state)) state in
            clearCheckpointsFromIndex targetIndex state
          else state
      | Js.Rejected err =>
          set_error (Some {| code := Js.or_else (Js.err_code err) "DELETE_ERROR";
                             message := Js.or_else (Js.err_message err) "Delete failed" |})
                    state
      end in
    (state, [request]).

End MessageActions.

(** ** streamHandler.ts *)
Module StreamHandler.
Import ChatStore.

Inductive ChunkType :=
| Chunk
| ToolsExecuting
| AwaitingConfirmation
| ToolIteration
| Complete
| Checkpoints
| Cancelled
| Error.

(** The fields of a [StreamChunk] the dispatcher reads; [sc_payload]
    stands for the fields only the handlers read. *)
Record StreamChunk := {
  sc_type : ChunkType;
  sc_conversationId : string;
  sc_chunk : Js.Value;
  sc_content : Js.Value;
  sc_payload : Js.Value
}.

(** The callbacks of [StreamHandlerContext]; its [state] is threaded
    through [handleStreamChunk] as an argument. *)
Record StreamHandlerContext := {
  ctx_currentModelName : unit → string;
  ctx_addCheckpoint : CheckpointRecord → ChatStoreState → ChatStoreState;
  ctx_updateConversationAfterMessage : ChatStoreState → ChatStoreState
}.

(** The handlers [streamHandler.ts] imports from
    [streamChunkHandlers.ts], which is not among the sources: the
    dispatcher is stated over any handlers of these signatures. *)
Record ChunkHandlers := {
  handleChunkType : StreamChunk → ChatStoreState → ChatStoreState;
  handleToolsExecuting : StreamChunk → ChatStoreState → ChatStoreState;
  handleAwaitingConfirmation : StreamChunk → ChatStoreState → ChatStoreState;
  handleToolIteration :
    StreamChunk → (unit → string)
    → (CheckpointRecord → ChatStoreState → ChatStoreState)
    → ChatStoreState → ChatStoreState;
  handleComplete :
    StreamChunk → (CheckpointRecord → ChatStoreState → ChatStoreState)
    → (ChatStoreState → ChatStoreState)
    → ChatStoreState → ChatStoreState;
  handleCheckpoints :
    StreamChunk → (CheckpointRecord → ChatStoreState → ChatStoreState)
    → ChatStoreState → ChatStoreState;
  handleCancelled : StreamChunk → ChatStoreState → ChatStoreState;
  handleError : StreamChunk → ChatStoreState → ChatStoreState
}.

Definition handleStreamChunk (handlers : ChunkHandlers) (chunk : StreamChunk)
    (ctx : StreamHandlerContext) (state : ChatStoreState) : ChatStoreState :=
  let currentModelName := ctx_currentModelName ctx in
  let addCheckpoint := ctx_addCheckpoint ctx in
  let updateConversationAfterMessage := ctx_updateConversationAfterMessage ctx in
  if bool_decide (Some (sc_conversationId chunk) ≠ currentConversationId state)
  then state
  else
    match sc_type chunk with
    | Chunk =>
        if Js.truthy_value (sc_chunk chunk)
           && Js.truthy_opt (streamingMessageId state)
        then handleChunkType handlers chunk state
        else state
    | ToolsExecuting => handleToolsExecuting handlers chunk state
    | AwaitingConfirmation => handleAwaitingConfirmation handlers chunk state
    | ToolIteration =>
        if Js.truthy_value (sc_content chunk)
        then handleToolIteration handlers chunk currentModelName addCheckpoint state
        else state
    | Complete =>
        if Js.truthy_value (sc_content chunk)
        then handleComplete handlers chunk addCheckpoint
               updateConversationAfterMessage state
        else state
    | Checkpoints => handleCheckpoints handlers chunk addCheckpoint state
    | Cancelled => handleCancelled handlers chunk state
    | Error => handleError handlers chunk state
    end.

End StreamHandler.

(** ** Stores, chunks and hosts used as examples *)
Module Scenario.
Import ChatStore Extension MessageActions StreamHandler.

(** The store of conversation [conv_a] with no turn in flight. *)
Definition idle_store : ChatStoreState :=
  {| currentConversationId := Some "conv_a";
     allMessages := [];
     checkpoints := [];
     error := None;
     isLoading := false;
     isStreaming := false;
     isWaitingForResponse := false;
     streamingMessageId := None;
     toolCallBuffer := "";
     inToolCall := None;
     processedDiffTools := [];
     handledDiffIds := [];
     handledFilePaths := [];
     pendingDiffToolIds := [];
     pendingAnnotation := "";
     conversations := [];
     configId := "cfg";
     currentWorkspaceUri := None |}.

Definition chunk_of (type : ChunkType) (conversationId : string)
    (chunk content : Js.Value) : StreamChunk :=
  {| sc_type := type;
     sc_conversationId := conversationId;
     sc_chunk := chunk;
     sc_content := content;
     sc_payload := Js.Undefined |}.

(** Handlers that leave a visible mark on the store, each its own, and
    a context whose callbacks do too: a chunk they handle never leaves the
    store as it was. *)
Definition marking_handlers : ChunkHandlers :=
  {| handleChunkType := λ _, set_pendingAnnotation "chunk";
     handleToolsExecuting := λ _, set_pendingAnnotation "toolsExecuting";
     handleAwaitingConfirmation := λ _, set_pendingAnnotation "awaitingConfirmation";
     handleToolIteration := λ _ _ _ s,
       set_streamingMessageId (Some "next") (set_pendingAnnotation "toolIteration" s);
     handleComplete := λ _ _ update s,
       update (set_isWaitingForResponse false (set_streamingMessageId None s));
     handleCheckpoints := λ _ _, set_pendingAnnotation "checkpoints";
     handleCancelled := λ _ s,
       set_isStreaming false (set_streamingMessageId None s);
     handleError := λ _, set_pendingAnnotation "error" |}.

Definition marking_context : StreamHandlerContext :=
  {| ctx_currentModelName := λ _, "model";
     ctx_addCheckpoint := λ cp s, set_checkpoints (checkpoints s ++ [cp]) s;
     ctx_updateConversationAfterMessage := set_isLoading false |}.

(** The store of [conv_a] while its turn streams into message [m1]. *)
Definition streaming_store : ChatStoreState :=
  set_isWaitingForResponse true
    (set_isStreaming true (set_streamingMessageId (Some "m1") idle_store)).

Definition model_of : ChatStoreComputed := {| currentModelName := "model-x" |}.

Definition ok_response : Response := {| success := true; deletedCount := 0 |}.

(** An extension host that accepts every request. *)
Definition accepting_env : Env :=
  {| generateId := λ n, match n with O => "id_0" | _ => "id_1" end;
     Date_now := λ n, 1700000000000 + Z.of_nat n;
     newConversationId := "conv_new";
     sendToExtension := λ _, Js.Resolved ok_response |}.

(** An extension host on which starting a turn throws. *)
Definition offline : Js.Error :=
  {| Js.err_code := None; Js.err_message := Some "offline" |}.

Definition offline_env : Env :=
  {| generateId := generateId accepting_env;
     Date_now := Date_now accepting_env;
     newConversationId := "conv_new";
     sendToExtension := λ request,
       match request with
       | Req_chatStream _ _ _ _ => Js.Rejected offline
       | _ => Js.Resolved ok_response
       end |}.

Definition text_message (id : string) (role : Role) (content : string) : Message :=
  {| msg_id := id;
     msg_role := role;
     msg_content := content;
     msg_timestamp := 0;
     msg_attachments := None;
     msg_streaming := None;
     msg_metadata := None;
     msg_parts := None |}.

Definition checkpoint_at (messageIndex : Z) : CheckpointRecord :=
  {| cp_id := "cp"; cp_conversationId := "conv_a"; cp_messageIndex := messageIndex |}.

(** The store of [conv_a], waiting for a response, with an error shown. *)
Definition waiting_with_error : ChatStoreState :=
  set_error (Some {| code := "DELETE_ERROR"; message := "Delete failed" |})
    streaming_store.

(** The store of [conv_a] holding a question and its answer, with a
    checkpoint at each. *)
Definition two_messages : ChatStoreState :=
  set_checkpoints [checkpoint_at 0; checkpoint_at 1]
    (set_allMessages
       [text_message "u0" user "question"; text_message "a1" assistant "answer"]
       idle_store).

(** The store of [conv_a] after two complete turns, with a checkpoint at
    every message. *)
Definition four_messages : ChatStoreState :=
  set_checkpoints [checkpoint_at 0; checkpoint_at 1; checkpoint_at 2; checkpoint_at 3]
    (set_allMessages
       [text_message "a0" assistant "welcome"; text_message "u1" user "old text";
        text_message "a2" assistant "answer"; text_message "u3" user "thanks"]
       idle_store).

(** An extension host whose deletion reports no success. *)
Definition refusing_env : Env :=
  {| generateId := generateId accepting_env;
     Date_now := Date_now accepting_env;
     newConversationId := "conv_new";
     sendToExtension := λ _, Js.Resolved {| success := false; deletedCount := 0 |} |}.

(** Two conversations streaming, the first of them cancelled twice. *)
Definition two_streams : StreamAbortManager.State :=
  (StreamAbortManager.create "conv_b"
     (StreamAbortManager.create "conv_a" StreamAbortManager.empty).2).2.

(** A webview that throws on the notification for [conv_a] and records
    the conversations of the notifications it takes. *)
Definition flaky_postMessage (m : StreamAbortManager.WebviewMessage)
    (taken : list string) : @StreamAbortManager.Posted (list string) :=
  if String.eqb (StreamAbortManager.wm_data_conversationId m) "conv_a"
  then StreamAbortManager.Threw taken
  else StreamAbortManager.Delivered
         (taken ++ [StreamAbortManager.wm_data_conversationId m]).

(** An extension host that is unreachable. *)
Definition unreachable_env : Env :=
  {| generateId := generateId accepting_env;
     Date_now := Date_now accepting_env;
     newConversationId := "conv_new";
     sendToExtension := λ _, Js.Rejected offline |}.

End Scenario.

(** ** Runs of the StreamAbortManager

    The calls a client makes on one manager, in order, with the webview
    that [cancelAll] is given threaded along. *)
Module ManagerRun.
Import StreamAbortManager.

Inductive Call :=
| Create (conversationId : string)
| Cancel (conversationId : string)
| Delete (conversationId : string)
| CancelAll.

Section Run.
Context {View : Type}.
Variable postMessage : WebviewMessage → View → @Posted View.

Definition call (c : Call) (sv : State * option View) : State * option View :=
  match c with
  | Create id => ((create id sv.1).2, sv.2)
  | Cancel id => ((cancel id sv.1).2, sv.2)
  | Delete id => (delete id sv.1, sv.2)
  | CancelAll => cancelAll postMessage sv.2 sv.1
  end.

Definition run (calls : list Call) (sv : State * option View) : State * option View :=
  foldl (λ sv c, call c sv) sv calls.
End Run.

(** What the manager keeps of its registry: a key is tracked once, no two
    keys share a controller, a tracked controller was made by [create] and
    has not been aborted, and so was every aborted one. *)
Definition tidy (s : State) : Prop :=
  wf s
  ∧ NoDup (controllers s).*2
  ∧ (∀ c, c ∈ (controllers s).*2 → (c ∉ aborted s) ∧ (c < allocated s)%nat)
  ∧ (∀ c, c ∈ aborted s → (c < allocated s)%nat).

End ManagerRun.

(** ** Array methods used by the remaining actions *)
Module JsArray.

(** [a.slice(s)]: a negative [s] counts from the end. *)
Definition slice_from {A} (s : Z) (a : list A) : list A :=
  if (s <? 0)%Z
  then drop (Z.to_nat (Z.max 0 (Z.of_nat (length a) + s))) a
  else drop (Z.to_nat s) a.

(** [a.findIndex(p)], counting from [i]: the index of the first element
    that satisfies [p], [-1] when there is none. *)
Fixpoint findIndex_from {A} (p : A → bool) (i : Z) (a : list A) : Z :=
  match a with
  | [] => -1
  | x :: rest => if p x then i else findIndex_from p (i + 1) rest
  end.

Definition findIndex {A} (p : A → bool) (a : list A) : Z := findIndex_from p 0 a.

End JsArray.

(** ** messageActions.ts: the remaining actions *)
Module MessageActionsRest.
Import ChatStore Extension CheckpointActions MessageActions.

(** [m.role === 'assistant'] *)
Definition is_assistant (m : Message) : bool :=
  match msg_role m with
  | assistant => true
  | user => false
  end.

(** The loop [for (let i = length - 1; i >= 0; i--)] of [retryLastMessage]
    over the messages from the last one down: it stops at the first
    assistant message it meets. *)
Fixpoint scan_down (i : Z) (fromLast : list Message) : Z :=
  match fromLast with
  | [] => -1
  | m :: rest => if is_assistant m then i else scan_down (i - 1) rest
  end.

Definition lastAssistantIndex (messages : list Message) : Z :=
  scan_down (Z.of_nat (length messages) - 1) (rev messages).

Definition retryLastMessage (env : Env) (computed : ChatStoreComputed)
    (cancelStream : CancelStreamCallback) (state : ChatStoreState)
    : ChatStoreState * list Request :=
  if Nat.eqb (length (allMessages state)) 0 then (state, [])
  else
    let lastAssistantIndex := lastAssistantIndex (allMessages state) in
    if negb (lastAssistantIndex =? -1)%Z
    then retryFromMessage env computed lastAssistantIndex cancelStream state
    else (state, []).

Definition retryAfterError (env : Env) (computed : ChatStoreComputed)
    (state : ChatStoreState) : ChatStoreState * list Request :=
  if negb (Js.truthy_opt (currentConversationId state)) then (state, [])
  else if isLoading state || isStreaming state then (state, [])
  else
    let state := set_error None state in
    let state := set_isLoading true state in
    let state := set_isStreaming true state in
    let state := set_isWaitingForResponse true state in
    let state := set_toolCallBuffer "" state in
    let state := set_inToolCall None state in
    let assistantMessageId := generateId env 0%nat in
    let assistantMessage := placeholder computed assistantMessageId (Date_now env 0%nat) in
    let state := push_message assistantMessage state in
    let state := set_streamingMessageId (Some assistantMessageId) state in
    let request := Req_retryStream (currentConversationId state) (configId state) in
    let state :=
      match sendToExtension env request with
      | Js.Resolved _ => state
      | Js.Rejected err => catch_dispatch "RETRY_ERROR" "Retry failed" err state
      end in
    (set_isLoading false state, [request]).

(** The ['deleteSingleMessage'] request and how it settles: the host
    answers [{ success }]. *)
Record SingleDeletion := {
  sd_conversationId : option string;
  sd_targetIndex : Z
}.

Definition deleteSingleMessage
    (sendToExtension : SingleDeletion → Js.Settled bool) (targetIndex : Z)
    (cancelStream : CancelStreamCallback) (state : ChatStoreState)
    : ChatStoreState * list SingleDeletion :=
  if negb (Js.truthy_opt (currentConversationId state)) then (state, [])
  else if out_of_range targetIndex state then (state, [])
  else
    let state := if isStreaming state then cancelStream state else state in
    let request :=
      {| sd_conversationId := currentConversationId state;
         sd_targetIndex := targetIndex |} in
    let state :=
      match sendToExtension request with
      | Js.Resolved success =>
          if success then
            set_allMessages
              (Js.array_slice_to targetIndex (allMessages state)
               ++ JsArray.slice_from (targetIndex + 1) (allMessages state))
              state
          else state
      | Js.Rejected err =>
          set_error (Some {| code := Js.or_else (Js.err_code err) "DELETE_ERROR";
                             message := Js.or_else (Js.err_message err) "Delete failed" |})
                    state
      end in
    (state, [request]).

Definition clearMessages (state : ChatStoreState) : ChatStoreState :=
  let state := set_allMessages [] state in
  let state := set_error None state in
  let state := set_streamingMessageId None state in
  set_isWaitingForResponse false state.

End MessageActionsRest.

(** ** Hosts on which a turn starts *)
Module Hosts.
Import ChatStore Extension MessageActions.

(** The user message [sendMessage] appends. *)
Definition userMessage_of (env : Env) (messageText : string)
    (attachments : option (list Attachment)) : Message :=
  {| msg_id := generateId env 0%nat;
     msg_role := user;
     msg_content := messageText;
     msg_timestamp := Date_now env 2%nat;
     msg_attachments := attachments_or_undefined attachments;
     msg_streaming := None;
     msg_metadata := None;
     msg_parts := None |}.

(** The request that starts a turn resolves. *)
Definition dispatch_resolves (env : Env) : Prop :=
  ∀ conversationId configId message attachments, ∃ response,
    sendToExtension env (Req_chatStream conversationId configId message attachments)
    = Js.Resolved response.

(** The creation of a conversation is rejected. *)
Definition creation_rejected (env : Env) : Prop :=
  ∀ conversationId title workspaceUri, ∃ err,
    sendToExtension env (Req_createConversation conversationId title workspaceUri)
    = Js.Rejected err.

(** Two hosts that differ at most in how they settle [deleteMessage]. *)
Definition same_but_deletion (env1 env2 : Env) : Prop :=
  generateId env1 = generateId env2
  ∧ Date_now env1 = Date_now env2
  ∧ ∀ conversationId configId,
      sendToExtension env1 (Req_retryStream conversationId configId)
      = sendToExtension env2 (Req_retryStream conversationId configId).

End Hosts.

(** ** conversationActions.ts: the remaining actions *)
Module ConversationActionsRest.
Import ChatStore MessageActions.

(** The value of a custom metadata entry. *)
Inductive MetaValue :=
| MetaNumber (n : Z)
| MetaText (s : string).

(** The metadata the host answers with; every part of it may be missing. *)
Record CustomMetadata := {
  cm_updatedAt : option Z;
  cm_messageCount : option Z;
  cm_preview : option string
}.

Record Metadata := {
  md_title : option string;
  md_createdAt : option Z;
  md_updatedAt : option Z;
  md_custom : option CustomMetadata;
  md_workspaceUri : option string
}.

(** The requests of the conversation and checkpoint stores, as sent. *)
Inductive HostCall :=
| Call_listConversations
| Call_getConversationMetadata (conversationId : string)
| Call_getMessages (conversationId : option string)
| Call_getCheckpoints (conversationId : option string)
| Call_deleteConversation (conversationId : string)
| Call_setCustomMetadata (conversationId : option string) (key : string)
    (value : MetaValue).

(** How the host settles each of them.  The answer to
    [checkpoint.getCheckpoints] is [None] when the result or its
    [checkpoints] is missing. *)
Record Host := {
  listConversations : Js.Settled (list string);
  getConversationMetadata : string → Js.Settled (option Metadata);
  getMessages : option string → Js.Settled (list Js.Value);
  getCheckpoints : option string → Js.Settled (option (list CheckpointRecord));
  deleteConversationData : string → Js.Settled unit;
  setCustomMetadata : option string → string → MetaValue → Js.Settled unit
}.

(** [cancelStreamAndRejectTools: () => Promise<void>], taken to resolve. *)
Definition CancelStreamAndRejectToolsCallback := ChatStoreState → ChatStoreState.

Definition createNewConversation
    (cancelStreamAndRejectTools : CancelStreamAndRejectToolsCallback)
    (state : ChatStoreState) : ChatStoreState :=
  let state :=
    if isWaitingForResponse state || isStreaming state
    then cancelStreamAndRejectTools state else state in
  let state := set_currentConversationId None state in
  let state := set_allMessages [] state in
  let state := set_checkpoints [] state in
  let state := set_error None state in
  let state := set_isLoading false state in
  let state := set_isStreaming false state in
  let state := set_streamingMessageId None state in
  set_isWaitingForResponse false state.

(** [contentToMessageEnhanced] of [parsers.ts] is not among the sources:
    [loadHistory] is stated over any parser. *)
Definition loadHistory (host : Host) (contentToMessageEnhanced : Js.Value → Message)
    (state : ChatStoreState) : ChatStoreState * list HostCall :=
  if negb (Js.truthy_opt (currentConversationId state)) then (state, [])
  else
    let request := Call_getMessages (currentConversationId state) in
    match getMessages host (currentConversationId state) with
    | Js.Resolved history =>
        (set_allMessages (map contentToMessageEnhanced history) state, [request])
    | Js.Rejected err =>
        (set_error
           (Some {| code := Js.or_else (Js.err_code err) "LOAD_ERROR";
                    message := Js.or_else (Js.err_message err) "Failed to load history" |})
           state, [request])
    end.

Definition loadCheckpoints (host : Host) (state : ChatStoreState)
    : ChatStoreState * list HostCall :=
  if negb (Js.truthy_opt (currentConversationId state))
  then (set_checkpoints [] state, [])
  else
    let request := Call_getCheckpoints (currentConversationId state) in
    match getCheckpoints host (currentConversationId state) with
    | Js.Resolved (Some checkpoints) => (set_checkpoints checkpoints state, [request])
    | Js.Resolved None => (set_checkpoints [] state, [request])
    | Js.Rejected _ => (set_checkpoints [] state, [request])
    end.

(** [conv.messageCount = n] on the first conversation of the id. *)
Fixpoint set_messageCount (id : string) (n : Z) (convs : list Conversation)
    : list Conversation :=
  match convs with
  | [] => []
  | c :: rest =>
      if String.eqb (conv_id c) id then
        {| conv_id := conv_id c;
           conv_title := conv_title c;
           conv_createdAt := conv_createdAt c;
           conv_updatedAt := conv_updatedAt c;
           conv_messageCount := n;
           conv_preview := conv_preview c;
           conv_isPersisted := conv_isPersisted c;
           conv_workspaceUri := conv_workspaceUri c |} :: rest
      else c :: set_messageCount id n rest
  end.

(** [conv] is the conversation object found on entry; the assignment to
    its [messageCount] at the end is made on the first conversation of
    the id in the list, the same object as long as the callback keeps
    the list. *)
Definition switchConversation (host : Host)
    (contentToMessageEnhanced : Js.Value → Message) (id : string)
    (cancelStreamAndRejectTools : CancelStreamAndRejectToolsCallback)
    (state : ChatStoreState) : ChatStoreState * list HostCall :=
  match List.find (λ c, String.eqb (conv_id c) id) (conversations state) with
  | None => (state, [])
  | Some conv =>
      let state :=
        if isWaitingForResponse state || isStreaming state
        then cancelStreamAndRejectTools state else state in
      let state := set_currentConversationId (Some id) state in
      let state := set_allMessages [] state in
      let state := set_checkpoints [] state in
      let state := set_error None state in
      let state := set_isLoading false state in
      let state := set_isStreaming false state in
      let state := set_streamingMessageId None state in
      let state := set_isWaitingForResponse false state in
      if conv_isPersisted conv then
        let '(state, sentHistory) := loadHistory host contentToMessageEnhanced state in
        let '(state, sentCheckpoints) := loadCheckpoints host state in
        let state :=
          set_conversations
            (set_messageCount id (messageCount state) (conversations state)) state in
        (state, sentHistory ++ sentCheckpoints)
      else (state, [])
  end.

(** The refs [loadConversations] and [deleteConversation] need besides
    those of the message actions. *)
Record ConversationsStore := {
  chat : ChatStoreState;
  isLoadingConversations : bool;
  deletingConversationIds : gset string
}.

Definition with_chat (chat' : ChatStoreState) (store : ConversationsStore)
    : ConversationsStore :=
  {| chat := chat';
     isLoadingConversations := isLoadingConversations store;
     deletingConversationIds := deletingConversationIds store |}.

Definition with_isLoadingConversations (b : bool) (store : ConversationsStore)
    : ConversationsStore :=
  {| chat := chat store;
     isLoadingConversations := b;
     deletingConversationIds := deletingConversationIds store |}.

Definition with_deleting (ids : gset string) (store : ConversationsStore)
    : ConversationsStore :=
  {| chat := chat store;
     isLoadingConversations := isLoadingConversations store;
     deletingConversationIds := ids |}.

Definition isDeletingConversation (id : string) (store : ConversationsStore) : bool :=
  bool_decide (id ∈ deletingConversationIds store).

(** The callbacks [switchConversationFn] and [createNewConversationFn]
    act on the store and are taken to resolve. *)
Definition deleteConversation (host : Host) (id : string)
    (switchConversationFn : string → ConversationsStore → ConversationsStore)
    (createNewConversationFn : ConversationsStore → ConversationsStore)
    (store : ConversationsStore) : bool * ConversationsStore * list HostCall :=
  match List.find (λ c, String.eqb (conv_id c) id) (conversations (chat store)) with
  | None => (false, store, [])
  | Some conv =>
      if isDeletingConversation id store then (false, store, [])
      else
        let store := with_deleting ({[ id ]} ∪ deletingConversationIds store) store in
        let '(deleted, sent) :=
          if conv_isPersisted conv
          then (deleteConversationData host id, [Call_deleteConversation id])
          else (Js.Resolved (), []) in
        let '(returned, store) :=
          match deleted with
          | Js.Resolved _ =>
              let store :=
                with_chat
                  (set_conversations
                     (List.filter (λ c, negb (String.eqb (conv_id c) id))
                        (conversations (chat store)))
                     (chat store))
                  store in
              let store :=
                if bool_decide (currentConversationId (chat store) = Some id) then
                  match conversations (chat store) with
                  | first :: _ => switchConversationFn (conv_id first) store
                  | [] => createNewConversationFn store
                  end
                else store in
              (true, store)
          | Js.Rejected err =>
              (false,
               with_chat
                 (set_error
                    (Some {| code := Js.or_else (Js.err_code err) "DELETE_ERROR";
                             message := Js.or_else (Js.err_message err)
                                          "Failed to delete conversation" |})
                    (chat store))
                 store)
          end in
        (* finally *)
        (returned,
         with_deleting (deletingConversationIds store ∖ {[ id ]}) store,
         sent)
  end.

(** [m.role === 'user' && !m.isFunctionResponse]; the model of a message
    has no [isFunctionResponse], which is read through a parameter. *)
Definition last_user_message (isFunctionResponse : Message → bool)
    (messages : list Message) : option Message :=
  last (List.filter
          (λ m, match msg_role m with user => true | assistant => false end
                && negb (isFunctionResponse m))
          messages).

(** [conv.preview = p], then [conv.updatedAt = now] and
    [conv.messageCount = n], on the first conversation of the id. *)
Fixpoint update_metadata (id : option string) (now n : Z) (preview : option string)
    (convs : list Conversation) : list Conversation :=
  match convs with
  | [] => []
  | c :: rest =>
      if bool_decide (Some (conv_id c) = id) then
        {| conv_id := conv_id c;
           conv_title := conv_title c;
           conv_createdAt := conv_createdAt c;
           conv_updatedAt := now;
           conv_messageCount := n;
           conv_preview := match preview with
                           | Some p => Some p
                           | None => conv_preview c
                           end;
           conv_isPersisted := conv_isPersisted c;
           conv_workspaceUri := conv_workspaceUri c |} :: rest
      else c :: update_metadata id now n preview rest
  end.

Definition updateConversationAfterMessage (host : Host)
    (isFunctionResponse : Message → bool) (now : Z) (state : ChatStoreState)
    : ChatStoreState * list HostCall :=
  if negb (Js.truthy_opt (currentConversationId state)) then (state, [])
  else
    match List.find (λ c, bool_decide (Some (conv_id c) = currentConversationId state))
            (conversations state) with
    | None => (state, [])
    | Some conv =>
        let id := currentConversationId state in
        let count := messageCount state in
        let setUpdatedAt := Call_setCustomMetadata id "updatedAt" (MetaNumber now) in
        let setCount := Call_setCustomMetadata id "messageCount" (MetaNumber count) in
        match setCustomMetadata host id "updatedAt" (MetaNumber now) with
        | Js.Rejected _ => (state, [setUpdatedAt])
        | Js.Resolved _ =>
            match setCustomMetadata host id "messageCount" (MetaNumber count) with
            | Js.Rejected _ => (state, [setUpdatedAt; setCount])
            | Js.Resolved _ =>
                match last_user_message isFunctionResponse (allMessages state) with
                | None =>
                    (set_conversations
                       (update_metadata id now count None (conversations state)) state,
                     [setUpdatedAt; setCount])
                | Some lastUserMsg =>
                    let preview := Js.slice_to 50 (msg_content lastUserMsg) in
                    let setPreview :=
                      Call_setCustomMetadata id "preview" (MetaText preview) in
                    match setCustomMetadata host id "preview" (MetaText preview) with
                    | Js.Rejected _ => (state, [setUpdatedAt; setCount; setPreview])
                    | Js.Resolved _ =>
                        (set_conversations
                           (update_metadata id now count (Some preview)
                              (conversations state)) state,
                         [setUpdatedAt; setCount; setPreview])
                    end
                end
            end
        end
    end.

(** [n || dflt] on a number that may be missing: [0] is falsy. *)
Definition number_or (n : option Z) (dflt : Z) : Z :=
  match n with
  | Some v => if (v =? 0)%Z then dflt else v
  | None => dflt
  end.

Definition number_truthy (n : option Z) : bool :=
  match n with
  | Some v => negb (v =? 0)%Z
  | None => false
  end.

(** [`Chat ${id.slice(0, 8)}`] *)
Definition default_title (id : string) : string := "Chat " +:+ Js.slice_to 8 id.

(** The summary pushed for an id whose metadata arrived, with the number
    of [Date.now()] calls made so far threaded through: [Date.now()] is
    called only where a stored time is missing or zero. *)
Definition summary_of_metadata (now : nat → Z) (tick : nat) (id : string)
    (metadata : option Metadata) : Conversation * nat :=
  let custom := metadata ≫= md_custom in
  let '(createdAt, tick) :=
    if number_truthy (metadata ≫= md_createdAt)
    then (number_or (metadata ≫= md_createdAt) 0, tick)
    else (now tick, S tick) in
  let '(updatedAt, tick) :=
    if number_truthy (metadata ≫= md_updatedAt)
    then (number_or (metadata ≫= md_updatedAt) 0, tick)
    else if number_truthy (custom ≫= cm_updatedAt)
    then (number_or (custom ≫= cm_updatedAt) 0, tick)
    else (now tick, S tick) in
  ({| conv_id := id;
      conv_title := Js.or_else (metadata ≫= md_title) (default_title id);
      conv_createdAt := createdAt;
      conv_updatedAt := updatedAt;
      conv_messageCount := number_or (custom ≫= cm_messageCount) 0;
      conv_preview := custom ≫= cm_preview;
      conv_isPersisted := true;
      conv_workspaceUri := metadata ≫= md_workspaceUri |},
   tick).

(** The summary pushed when the metadata request is rejected. *)
Definition summary_of_failure (now : nat → Z) (tick : nat) (id : string)
    : Conversation * nat :=
  ({| conv_id := id;
      conv_title := default_title id;
      conv_createdAt := now tick;
      conv_updatedAt := now (S tick);
      conv_messageCount := 0;
      conv_preview := None;
      conv_isPersisted := true;
      conv_workspaceUri := None |},
   S (S tick)).

(** The loop [for (const id of ids)] of [loadConversations]: the
    summaries pushed and the requests sent. *)
Fixpoint load_summaries (host : Host) (now : nat → Z) (tick : nat) (ids : list string)
    : list Conversation * list HostCall :=
  match ids with
  | [] => ([], [])
  | id :: rest =>
      let '(summary, tick) :=
        match getConversationMetadata host id with
        | Js.Resolved metadata => summary_of_metadata now tick id metadata
        | Js.Rejected _ => summary_of_failure now tick id
        end in
      let '(summaries, sent) := load_summaries host now tick rest in
      (summary :: summaries, Call_getConversationMetadata id :: sent)
  end.

Definition loadConversations (host : Host) (now : nat → Z) (store : ConversationsStore)
    : ConversationsStore * list HostCall :=
  let store := with_isLoadingConversations true store in
  let '(store, sent) :=
    match listConversations host with
    | Js.Resolved ids =>
        let '(summaries, sent) := load_summaries host now 0 ids in
        let unpersistedConvs :=
          List.filter (λ c, negb (conv_isPersisted c)) (conversations (chat store)) in
        (with_chat (set_conversations (unpersistedConvs ++ summaries) (chat store)) store,
         Call_listConversations :: sent)
    | Js.Rejected err =>
        (with_chat
           (set_error
              (Some {| code := Js.or_else (Js.err_code err) "LOAD_ERROR";
                       message := Js.or_else (Js.err_message err)
                                    "Failed to load conversations" |})
              (chat store))
           store,
         [Call_listConversations])
    end in
  (with_isLoadingConversations false store, sent).

End ConversationActionsRest.

(** ** utils.ts *)
Module Utils.
Import ChatStore.

(** [allMessages.findIndex(m => m.id === targetId)] for the message shown
    at [displayIndex], [-1] when that index is outside the shown list. *)
Definition getActualIndex (displayIndex : Z) (displayMessages allMessages : list Message)
    : Z :=
  if (displayIndex <? 0)%Z || (Z.of_nat (length displayMessages) <=? displayIndex)%Z
  then -1
  else
    match displayMessages !! Z.to_nat displayIndex with
    | Some shown =>
        JsArray.findIndex (λ m, String.eqb (msg_id m) (msg_id shown)) allMessages
    | None => -1
    end.

Definition minute : Z := 60 * 1000.
Definition hour : Z := 60 * minute.
Definition day : Z := 24 * hour.

(** [translate] of the i18n composable and [toLocaleDateString] are not
    among the sources; the language comes from the settings store, and
    [now] is what [Date.now()] returns.  Times are whole milliseconds. *)
Definition formatTime
    (translate : string → string → option (string * Z) → string)
    (toLocaleDateString : Z → string) (language : option string) (now timestamp : Z)
    : string :=
  let lang := Js.or_else language "zh-CN" in
  let diff := now - timestamp in
  if (diff <? minute)%Z then
    translate lang "stores.chatStore.relativeTime.justNow" None
  else if (diff <? hour)%Z then
    let minutes := diff / minute in
    translate lang "stores.chatStore.relativeTime.minutesAgo" (Some ("minutes", minutes))
  else if (diff <? day)%Z then
    let hours := diff / hour in
    translate lang "stores.chatStore.relativeTime.hoursAgo" (Some ("hours", hours))
  else if (diff <? 7 * day)%Z then
    let days := diff / day in
    translate lang "stores.chatStore.relativeTime.daysAgo" (Some ("days", days))
  else toLocaleDateString timestamp.

End Utils.

(** ** engines/factory.ts *)
Module EngineFactory.

(** An engine object: its [type] and [name], and which object it is. *)
Record Engine := {
  engine_type : string;
  engine_name : string;
  engine_instance : nat
}.

(** The module's [engineCache], with the number of engines constructed. *)
Record Factory := {
  engineCache : JsMap.t Engine;
  constructed : nat
}.

Definition no_engines : Factory := {| engineCache := []; constructed := 0 |}.

(** [createRemovalEngine(type)]: [None] when it throws
    ([Unknown engine type]). *)
Definition createRemovalEngine (type : string) (f : Factory) : option Engine * Factory :=
  match JsMap.get type (engineCache f) with
  | Some cached => (Some cached, f)
  | None =>
      let made :=
        if String.eqb type "transformers" then
          Some {| engine_type := "transformers";
                  engine_name := "Transformers.js (RMBG-1.4)";
                  engine_instance := constructed f |}
        else if String.eqb type "gemini" then
          Some {| engine_type := "gemini";
                  engine_name := "Gemini Image API";
                  engine_instance := constructed f |}
        else None in
      match made with
      | Some engine =>
          (Some engine,
           {| engineCache := JsMap.set type engine (engineCache f);
              constructed := S (constructed f) |})
      | None => (None, f)
      end
  end.

Record EngineInfo := {
  info_type : string;
  info_name : string;
  info_available : bool
}.

(** [getAvailableEngines()], over how [isAvailable()] of an engine
    settles; it rejects when one of the two checks does. *)
Definition getAvailableEngines (isAvailable : Engine → Js.Settled bool) (f : Factory)
    : Js.Settled (list EngineInfo) * Factory :=
  match createRemovalEngine "transformers" f with
  | (None, f) =>
      (Js.Rejected {| Js.err_code := None;
                      Js.err_message := Some "Unknown engine type: transformers" |}, f)
  | (Some transformersEngine, f) =>
      match isAvailable transformersEngine with
      | Js.Rejected err => (Js.Rejected err, f)
      | Js.Resolved transformersAvailable =>
          match createRemovalEngine "gemini" f with
          | (None, f) =>
              (Js.Rejected {| Js.err_code := None;
                              Js.err_message := Some "Unknown engine type: gemini" |}, f)
          | (Some geminiEngine, f) =>
              match isAvailable geminiEngine with
              | Js.Rejected err => (Js.Rejected err, f)
              | Js.Resolved geminiAvailable =>
                  (Js.Resolved
                     [ {| info_type := "transformers";
                          info_name := engine_name transformersEngine;
                          info_available := transformersAvailable |};
                       {| info_type := "gemini";
                          info_name := engine_name geminiEngine;
                          info_available := geminiAvailable |} ],
                   f)
              end
          end
      end
  end.

Definition getDefaultEngineType (isAvailable : Engine → Js.Settled bool) (f : Factory)
    : Js.Settled string * Factory :=
  match getAvailableEngines isAvailable f with
  | (Js.Rejected err, f) => (Js.Rejected err, f)
  | (Js.Resolved engines, f) =>
      match List.find (λ e, String.eqb (info_type e) "transformers") engines with
      | Some transformers =>
          if info_available transformers
          then (Js.Resolved "transformers", f)
          else (Js.Resolved "gemini", f)
      | None => (Js.Resolved "gemini", f)
      end
  end.

(** The cache holds under each type an engine of that type. *)
Definition typed (f : Factory) : Prop :=
  ∀ type engine, JsMap.get type (engineCache f) = Some engine → engine_type engine = type.

End EngineFactory.

(** ** More stores and hosts used as examples *)
Module Scenario2.
Import ChatStore Extension MessageActions MessageActionsRest StreamHandler Scenario.

(** The store of [conv_a] after a turn whose answer was followed by a
    function response (a user message). *)
Definition answered_then_tool : ChatStoreState :=
  set_allMessages
    [text_message "u0" user "question"; text_message "a1" assistant "answer";
     text_message "u2" user "tool result"]
    idle_store.

(** A store with no conversation yet. *)
Definition fresh_store : ChatStoreState := set_currentConversationId None idle_store.

(** A host on which a single deletion succeeds. *)
Definition single_deletion_ok (request : SingleDeletion) : Js.Settled bool :=
  Js.Resolved true.

(** A cancel callback that lowers [isStreaming]. *)
Definition set_isStreaming_off : CancelStreamCallback := set_isStreaming false.

(** A host that rejects deletions and accepts everything else. *)
Definition deletion_fails_env : Env :=
  {| generateId := generateId accepting_env;
     Date_now := Date_now accepting_env;
     newConversationId := "conv_new";
     sendToExtension := λ request,
       match request with
       | Req_deleteMessage _ _ => Js.Rejected offline
       | _ => Js.Resolved ok_response
       end |}.

End Scenario2.

(** ** Conversations and hosts of the conversation store used as examples *)
Module Scenario3.
Import ChatStore MessageActions StreamHandler ConversationActionsRest Scenario Scenario2.

Definition conversation (id : string) (persisted : bool) : Conversation :=
  {| conv_id := id;
     conv_title := "Chat";
     conv_createdAt := 1;
     conv_updatedAt := 1;
     conv_messageCount := 0;
     conv_preview := None;
     conv_isPersisted := persisted;
     conv_workspaceUri := None |}.

(** The store of [conv_a] with [conv_a] and [conv_b] in the list, both
    persisted. *)
Definition two_conversations : ChatStoreState :=
  set_conversations [conversation "conv_a" true; conversation "conv_b" true]
    two_messages.

(** A parser that keeps the text of a content. *)
Definition parse_text (content : Js.Value) : Message :=
  text_message "loaded" user
    match content with
    | Js.Str s => s
    | _ => ""
    end.

(** A host that holds three messages and one checkpoint for every
    conversation and accepts every request. *)
Definition full_host : Host :=
  {| listConversations := Js.Resolved ["conv_a"; "conv_b"];
     getConversationMetadata := λ _, Js.Resolved None;
     getMessages := λ _, Js.Resolved [Js.Str "one"; Js.Str "two"; Js.Str "three"];
     getCheckpoints := λ _, Js.Resolved (Some [checkpoint_at 2]);
     deleteConversationData := λ _, Js.Resolved ();
     setCustomMetadata := λ _ _ _, Js.Resolved () |}.

(** A host that rejects every request. *)
Definition down_host : Host :=
  {| listConversations := Js.Rejected offline;
     getConversationMetadata := λ _, Js.Rejected offline;
     getMessages := λ _, Js.Rejected offline;
     getCheckpoints := λ _, Js.Rejected offline;
     deleteConversationData := λ _, Js.Rejected offline;
     setCustomMetadata := λ _ _ _, Js.Rejected offline |}.

Definition conversations_store (deleting : gset string) : ConversationsStore :=
  {| chat := two_conversations;
     isLoadingConversations := false;
     deletingConversationIds := deleting |}.

(** Callbacks of [deleteConversation] that only make a conversation
    current, or none. *)
Definition switch_to (id : string) (store : ConversationsStore) : ConversationsStore :=
  with_chat (set_currentConversationId (Some id) (chat store)) store.

Definition start_afresh (store : ConversationsStore) : ConversationsStore :=
  with_chat (set_currentConversationId None (chat store)) store.

Definition no_function_response (m : Message) : bool := false.

End Scenario3.

(** * Properties *)

(** ** The insertion-ordered map *)
Section JsMapFacts.
Context {V : Type}.
Implicit Types (m : JsMap.t V) (k : string) (v : V).

Lemma JsMap_get_Some_elem m k v : JsMap.get k m = Some v → (k, v) ∈ m.
Proof.
  induction m as [|[k' v'] m IH]; simpl; [done|].
  destruct (String.eqb_spec k' k) as [->|Hne].
  - intros [= ->]. apply list_elem_of_here.
  - intros H. apply list_elem_of_further, IH, H.
Qed.

Lemma JsMap_get_None_keys m k : JsMap.get k m = None ↔ k ∉ m.*1.
Proof.
  induction m as [|[k' v'] m IH]; simpl.
  - split; [intros _; apply not_elem_of_nil | done].
  - rewrite not_elem_of_cons. destruct (String.eqb_spec k' k) as [->|Hne].
    + split; [done | intros [? _]; done].
    + rewrite IH. split; [intros ?; split; [congruence | done] | intros [_ ?]; done].
Qed.

Lemma JsMap_delete_absent m k : JsMap.get k m = None → JsMap.delete k m = m.
Proof.
  induction m as [|[k' v'] m IH]; simpl; [done|].
  destruct (String.eqb k' k); [done|]. intros H. by rewrite IH.
Qed.

Lemma JsMap_size_delete m k v :
  JsMap.get k m = Some v → JsMap.size m = S (JsMap.size (JsMap.delete k m)).
Proof.
  unfold JsMap.size. induction m as [|[k' v'] m IH]; simpl; [done|].
  destruct (String.eqb k' k); [done|]. intros H. by rewrite (IH H).
Qed.

Lemma JsMap_delete_keys_subseteq m k : (JsMap.delete k m).*1 ⊆ m.*1.
Proof.
  induction m as [|[k' v'] m IH]; simpl; [done|].
  destruct (String.eqb k' k); simpl.
  - intros x Hx. by apply list_elem_of_further.
  - intros x. rewrite !elem_of_cons. intros [->|Hx]; [by left|right; by apply IH].
Qed.

Lemma JsMap_wf_delete m k : JsMap.wf m → JsMap.wf (JsMap.delete k m).
Proof.
  unfold JsMap.wf. induction m as [|[k' v'] m IH]; simpl; [done|].
  rewrite NoDup_cons. intros [Hk Hm].
  destruct (String.eqb k' k); simpl; [done|].
  apply NoDup_cons. split; [|by apply IH].
  intros Hin. apply Hk. by apply (JsMap_delete_keys_subseteq m k).
Qed.

Lemma JsMap_get_delete m k : JsMap.wf m → JsMap.get k (JsMap.delete k m) = None.
Proof.
  unfold JsMap.wf. induction m as [|[k' v'] m IH]; simpl; [done|].
  rewrite NoDup_cons. intros [Hk Hm].
  destruct (String.eqb_spec k' k) as [->|Hne]; simpl.
  - by apply JsMap_get_None_keys.
  - destruct (String.eqb_spec k' k); [done|]. by apply IH.
Qed.

Lemma JsMap_set_keys m k v :
  (JsMap.set k v m).*1 = if bool_decide (k ∈ m.*1) then m.*1 else m.*1 ++ [k].
Proof.
  induction m as [|[k' v'] m IH].
  - case_bool_decide as Hin; [by apply elem_of_nil in Hin | done].
  - cbn [JsMap.set fmap list_fmap fst]. destruct (String.eqb_spec k' k) as [->|Hne].
    + rewrite bool_decide_eq_true_2 by apply list_elem_of_here. done.
    + rewrite fmap_cons, IH. simpl.
      destruct (decide (k ∈ m.*1)) as [Hin|Hin].
      * rewrite !bool_decide_eq_true_2; [done | by apply list_elem_of_further | done].
      * rewrite !bool_decide_eq_false_2; [done | | done].
        rewrite not_elem_of_cons. split; [congruence | done].
Qed.

Lemma JsMap_wf_set m k v : JsMap.wf m → JsMap.wf (JsMap.set k v m).
Proof.
  unfold JsMap.wf. intros Hm. rewrite JsMap_set_keys. case_bool_decide as Hin; [done|].
  apply NoDup_app. split; [done|]. split; [|apply NoDup_singleton].
  intros x Hx. rewrite list_elem_of_singleton. intros ->. done.
Qed.
End JsMapFacts.

(** ** StreamAbortManager *)
Section AbortManagerFacts.
Import StreamAbortManager.

(** The map of a manager that starts empty never holds a key twice. *)
Lemma wf_empty : wf empty.
Proof. apply NoDup_nil_2. Qed.

Lemma wf_create id s : wf s → wf (create id s).2.
Proof. apply JsMap_wf_set. Qed.

Lemma wf_cancel id s : wf s → wf (cancel id s).2.
Proof.
  unfold cancel, wf. destruct (JsMap.get id (controllers s)); simpl; [|done].
  apply JsMap_wf_delete.
Qed.

Lemma wf_delete id s : wf s → wf (delete id s).
Proof. apply JsMap_wf_delete. Qed.

Lemma cancel_absent id s : get id s = None → cancel id s = (false, s).
Proof. unfold get, cancel. by intros ->. Qed.

Lemma cancel_present id c s :
  get id s = Some c →
  cancel id s =
    (true, {| controllers := JsMap.delete id (controllers s);
              aborted := {[ c ]} ∪ aborted s;
              allocated := allocated s |}).
Proof. unfold get, cancel. by intros ->. Qed.

Lemma cancelAll_loop_spec {View} (postMessage : WebviewMessage → View → Posted)
    entries view s :
  let r := cancelAll_loop postMessage entries view s in
  controllers r.1 = controllers s
  ∧ aborted r.1 = list_to_set entries.*2 ∪ aborted s
  ∧ allocated r.1 = allocated s
  ∧ r.2 = foldl (λ v id, notify postMessage id v) view entries.*1.
Proof.
  revert view s. induction entries as [|[k c] entries IH]; intros view s; simpl.
  - split; [done|]. split; [by rewrite (left_id_L ∅ (∪)) | done].
  - destruct (IH (notify postMessage k view) (abort c s)) as (H1 & H2 & H3 & H4).
    rewrite H1, H2, H3, H4. simpl. split; [done|]. split; [|done].
    by rewrite (assoc_L (∪)), (comm_L (∪) _ {[ c ]}).
Qed.

Lemma wf_cancelAll {View} (postMessage : WebviewMessage → View → Posted) view s :
  wf (cancelAll postMessage view s).1.
Proof.
  unfold cancelAll. destruct (cancelAll_loop postMessage (controllers s) view s).
  apply NoDup_nil_2.
Qed.

(** [create] on a key that is tracked replaces its controller and signals
    nothing: the controller it drops is as aborted as it was. *)
Lemma create_replaces_silently id s :
  let r := create id s in
  get id r.2 = Some r.1 ∧ aborted r.2 = aborted s.
Proof.
  unfold create, get. simpl. split; [|done].
  induction (controllers s) as [|[k c] m IH]; simpl.
  - by rewrite String.eqb_refl.
  - destruct (String.eqb_spec k id) as [->|Hne]; simpl.
    + by rewrite String.eqb_refl.
    + by destruct (String.eqb_spec k id).
Qed.
End AbortManagerFacts.

Section AbortManagerClaims.
Import StreamAbortManager Scenario.

(** C5. [cancel(key)] returns [true] exactly when an entry exists for
    [key]; it then signals cancellation on the stored controller and
    removes the entry (the size drops by one).  On an absent key it
    returns [false] and changes nothing.  Hence a second [cancel(key)] in
    succession returns [false] and is a no-op, and the size decreases by
    at most one across the pair. *)
Theorem cancel_idempotent (s : State) (conversationId : string) :
  wf s →
  let first := cancel conversationId s in
  let second := cancel conversationId first.2 in
  (first.1 = true ↔ is_Some (get conversationId s))
  ∧ (∀ controller, get conversationId s = Some controller →
       first.1 = true
       ∧ controller ∈ aborted first.2
       ∧ get conversationId first.2 = None
       ∧ size s = S (size first.2))
  ∧ (get conversationId s = None → first = (false, s))
  ∧ second = (false, first.2)
  ∧ (size s ≤ S (size second.2))%nat.
Proof.
  intros Hwf first second.
  assert (Hgone : get conversationId first.2 = None).
  { subst first. destruct (get conversationId s) as [c|] eqn:Hget.
    - rewrite (cancel_present _ _ _ Hget). by apply JsMap_get_delete.
    - by rewrite (cancel_absent _ _ Hget). }
  assert (Hsecond : second = (false, first.2)) by by apply cancel_absent.
  split; [|split; [|split; [|split]]].
  - subst first. destruct (get conversationId s) as [c|] eqn:Hget.
    + rewrite (cancel_present _ _ _ Hget). by split; [eexists|].
    + rewrite (cancel_absent _ _ Hget). simpl.
      split; [done | intros [? ?]; done].
  - intros c Hget. subst second first. rewrite (cancel_present _ _ _ Hget) in *.
    simpl. split; [done|]. split; [apply elem_of_union_l, elem_of_singleton; done|].
    split; [by apply JsMap_get_delete|]. by apply (JsMap_size_delete _ _ c).
  - apply cancel_absent.
  - done.
  - rewrite Hsecond. simpl. subst first.
    destruct (get conversationId s) as [c|] eqn:Hget.
    + rewrite (cancel_present _ _ _ Hget). simpl. unfold size. simpl.
      by rewrite (JsMap_size_delete _ _ c Hget).
    + rewrite (cancel_absent _ _ Hget). simpl. lia.
Qed.

Lemma cancel_idempotent_witness :
  wf two_streams
  ∧ (cancel "conv_a" two_streams).1 = true
  ∧ cancel "conv_a" (cancel "conv_a" two_streams).2
    = (false, (cancel "conv_a" two_streams).2).
Proof.
  assert (Hwf : wf two_streams) by (apply wf_create, wf_create, wf_empty).
  split; [exact Hwf|].
  destruct (cancel_idempotent two_streams "conv_a" Hwf) as (_ & Hpresent & _ & Hsecond & _).
  split; [|exact Hsecond].
  apply (Hpresent 0%nat). reflexivity.
Defined.

(** C6. Whatever the webview does with each notification (deliver it or
    throw, for any keys), [cancelAll] signals cancellation on every
    tracked controller and leaves the registry empty: the controllers
    aborted afterwards are those aborted before and all the tracked
    ones, for every [postMessage] and with or without a view.  The view
    is handed one notification per key, in the order of the map, each
    after the throw or delivery of the one before. *)
Theorem cancelAll_cancels_every_entry {View : Type}
    (postMessage : WebviewMessage → View → Posted) (view : option View)
    (s : State) :
  let s' := (cancelAll postMessage view s).1 in
  size s' = 0%nat
  ∧ controllers s' = []
  ∧ (∀ conversationId controller,
       (conversationId, controller) ∈ controllers s → controller ∈ aborted s')
  ∧ aborted s' = list_to_set (controllers s).*2 ∪ aborted s
  ∧ (cancelAll postMessage view s).2
    = foldl (λ v conversationId, notify postMessage conversationId v) view
        (controllers s).*1.
Proof.
  unfold cancelAll.
  pose proof (cancelAll_loop_spec postMessage (controllers s) view s)
    as (H1 & H2 & H3 & H4).
  destruct (cancelAll_loop postMessage (controllers s) view s) as [s1 view1].
  simpl in *. split; [done|]. split; [done|]. split; [|done].
  intros k c Hin. rewrite H2. apply elem_of_union_l, elem_of_list_to_set.
  apply (list_elem_of_fmap_2 snd _ _ Hin).
Qed.

(** The view throws on the first of two entries: the second controller
    is aborted and its notification taken all the same. *)
Lemma cancelAll_after_a_throw :
  let r := cancelAll flaky_postMessage (Some []) two_streams in
  controllers two_streams = [("conv_a", 0%nat); ("conv_b", 1%nat)]
  ∧ size r.1 = 0%nat
  ∧ aborted r.1 = {[ 1%nat ]} ∪ ({[ 0%nat ]} ∪ ∅)
  ∧ r.2 = Some ["conv_b"].
Proof. repeat split. Qed.
End AbortManagerClaims.

(** ** The stream dispatcher *)
Section StreamHandlerClaims.
Import ChatStore StreamHandler Scenario.

(** A chunk of the current conversation with a streaming message and a
    payload reaches [handleChunkType]. *)
Lemma handleStreamChunk_live_chunk handlers chunk ctx state :
  Some (sc_conversationId chunk) = currentConversationId state →
  sc_type chunk = Chunk →
  Js.truthy_value (sc_chunk chunk) = true →
  Js.truthy_opt (streamingMessageId state) = true →
  handleStreamChunk handlers chunk ctx state = handleChunkType handlers chunk state.
Proof.
  intros Hid Htype Hchunk Hstreaming. unfold handleStreamChunk.
  rewrite bool_decide_eq_false_2 by (intros Hne; by apply Hne).
  by rewrite Htype, Hchunk, Hstreaming.
Qed.

(** A [complete] chunk of the current conversation whose content is
    truthy reaches [handleComplete]. *)
Lemma handleStreamChunk_complete_with_content handlers chunk ctx state :
  Some (sc_conversationId chunk) = currentConversationId state →
  sc_type chunk = Complete →
  Js.truthy_value (sc_content chunk) = true →
  handleStreamChunk handlers chunk ctx state
  = handleComplete handlers chunk (ctx_addCheckpoint ctx)
      (ctx_updateConversationAfterMessage ctx) state.
Proof.
  intros Hid Htype Hcontent. unfold handleStreamChunk.
  rewrite bool_decide_eq_false_2 by (intros Hne; by apply Hne).
  by rewrite Htype, Hcontent.
Qed.

(** C3. Once [streamingMessageId] is cleared, a [chunk] event leaves
    the whole store, the message list included, as it was, whatever the
    handlers are and whatever the chunk carries. *)
Theorem stale_chunk_is_ignored handlers chunk ctx state :
  streamingMessageId state = None →
  sc_type chunk = Chunk →
  handleStreamChunk handlers chunk ctx state = state
  ∧ allMessages (handleStreamChunk handlers chunk ctx state) = allMessages state.
Proof.
  intros Hcleared Htype.
  assert (handleStreamChunk handlers chunk ctx state = state) as ->; [|done].
  unfold handleStreamChunk. rewrite Htype, Hcleared. simpl.
  rewrite andb_false_r. by case_bool_decide.
Qed.

Lemma stale_chunk_is_ignored_witness :
  streamingMessageId idle_store = None
  ∧ handleStreamChunk marking_handlers
      (chunk_of Chunk "conv_a" (Js.Object Js.NoFields) Js.Undefined)
      marking_context idle_store = idle_store.
Proof.
  split; [reflexivity|].
  apply (stale_chunk_is_ignored marking_handlers
           (chunk_of Chunk "conv_a" (Js.Object Js.NoFields) Js.Undefined)
           marking_context idle_store); reflexivity.
Defined.

(** C4. A chunk whose [conversationId] is not the id of the current
    conversation leaves the whole store as it was, for every chunk type
    and all handlers. *)
Theorem foreign_chunk_is_ignored handlers chunk ctx state :
  Some (sc_conversationId chunk) ≠ currentConversationId state →
  handleStreamChunk handlers chunk ctx state = state.
Proof.
  intros Hforeign. unfold handleStreamChunk.
  by rewrite bool_decide_eq_true_2.
Qed.

Lemma foreign_chunk_is_ignored_witness :
  Some "conv_b" ≠ currentConversationId idle_store
  ∧ handleStreamChunk marking_handlers
      (chunk_of Cancelled "conv_b" Js.Undefined Js.Undefined)
      marking_context idle_store = idle_store.
Proof.
  assert (Hforeign : Some "conv_b" ≠ currentConversationId idle_store)
    by (simpl; congruence).
  split; [exact Hforeign|].
  exact (foreign_chunk_is_ignored marking_handlers
           (chunk_of Cancelled "conv_b" Js.Undefined Js.Undefined)
           marking_context idle_store Hforeign).
Defined.

(** C10. A [complete] or [toolIteration] chunk whose [content] is
    absent or empty (falsy: [undefined], [null] or the empty string)
    leaves the whole store as it was: nothing is finalized,
    [streamingMessageId] and the flags keep their values and no
    checkpoint is added. *)
Theorem contentless_chunk_is_ignored handlers chunk ctx state :
  sc_type chunk = Complete ∨ sc_type chunk = ToolIteration →
  Js.truthy_value (sc_content chunk) = false →
  let state' := handleStreamChunk handlers chunk ctx state in
  state' = state
  ∧ allMessages state' = allMessages state
  ∧ streamingMessageId state' = streamingMessageId state
  ∧ checkpoints state' = checkpoints state
  ∧ isWaitingForResponse state' = isWaitingForResponse state
  ∧ isLoading state' = isLoading state
  ∧ isStreaming state' = isStreaming state.
Proof.
  intros Htype Hcontent state'.
  assert (state' = state) as ->; [|done].
  subst state'. unfold handleStreamChunk.
  case_bool_decide; [done|].
  destruct Htype as [-> | ->]; by rewrite Hcontent.
Qed.

Lemma contentless_chunk_is_ignored_witness :
  Js.truthy_value (Js.Str "") = false
  ∧ handleStreamChunk marking_handlers
      (chunk_of Complete "conv_a" Js.Undefined (Js.Str ""))
      marking_context streaming_store = streaming_store.
Proof.
  split; [reflexivity|].
  apply (contentless_chunk_is_ignored marking_handlers
           (chunk_of Complete "conv_a" Js.Undefined (Js.Str ""))
           marking_context streaming_store); [by left | reflexivity].
Defined.
End StreamHandlerClaims.

(** ** The message actions *)
Section MessageActionClaims.
Import ChatStore Extension ConversationActions CheckpointActions MessageActions.
Import Scenario.

Lemma trim_spaces_only : Js.trim "  " = "" ∧ Js.trim " hi " = "hi".
Proof. split; reflexivity. Qed.

(** C9, as stated, fails: a [sendMessage] that finds the conversation
    already waiting returns without appending or sending, but it has reset
    the error slot before it looked at [isWaitingForResponse]. *)
Lemma sendMessage_while_waiting_counterexample :
  isWaitingForResponse waiting_with_error = true
  ∧ error waiting_with_error
    = Some {| code := "DELETE_ERROR"; message := "Delete failed" |}
  ∧ error (sendMessage accepting_env model_of "Hello" None waiting_with_error).1 = None
  ∧ (sendMessage accepting_env model_of "Hello" None waiting_with_error).1
    ≠ waiting_with_error.
Proof.
  repeat split; try reflexivity.
  intros Hsame. apply (f_equal error) in Hsame. discriminate Hsame.
Qed.

(** C9, amended. When there is nothing to send (blank text and no
    attachments) [sendMessage] leaves the store as it was; when there is
    something to send but the conversation is already waiting for a
    response it only resets the error slot.  In both cases no message is
    appended and no request is sent. *)
Theorem sendMessage_rejected env computed messageText attachments state :
  nothing_to_send messageText attachments = true
  ∨ isWaitingForResponse state = true →
  let result := sendMessage env computed messageText attachments state in
  result.2 = []
  ∧ allMessages result.1 = allMessages state
  ∧ result.1 = (if nothing_to_send messageText attachments then state
                else set_error None state)
  ∧ (error state = None → result.1 = state).
Proof.
  intros Hrejected result. subst result. unfold sendMessage.
  destruct (nothing_to_send messageText attachments) eqn:Hnothing.
  - done.
  - destruct Hrejected as [? | Hwaiting]; [done|].
    change (isWaitingForResponse (set_error None state))
      with (isWaitingForResponse state).
    rewrite Hwaiting. simpl. repeat split; try done.
    intros Herror. destruct state; simpl in *. by subst.
Qed.

Lemma sendMessage_rejected_witness :
  (nothing_to_send "Hello" None = true
   ∨ isWaitingForResponse waiting_with_error = true)
  ∧ sendMessage accepting_env model_of "Hello" None waiting_with_error
    = (set_error None waiting_with_error, []).
Proof.
  assert (Hrejected : nothing_to_send "Hello" None = true
                      ∨ isWaitingForResponse waiting_with_error = true)
    by (right; reflexivity).
  split; [exact Hrejected|].
  destruct (sendMessage_rejected accepting_env model_of "Hello" None
              waiting_with_error Hrejected) as (Hsent & _ & Hstore & _).
  destruct (sendMessage accepting_env model_of "Hello" None waiting_with_error)
    as [store sent].
  simpl in *. by rewrite Hsent, Hstore.
Defined.

(** *** Arrays and the placeholder *)

Lemma array_slice_to_nonneg {A} (e : Z) (a : list A) :
  0 ≤ e → Js.array_slice_to e a = take (Z.to_nat e) a.
Proof. intros He. unfold Js.array_slice_to. by rewrite (proj2 (Z.ltb_ge e 0) He). Qed.

Lemma kept_checkpoints_below fromIndex (cps : list CheckpointRecord) cp :
  cp ∈ List.filter (λ cp, cp_messageIndex cp <? fromIndex) cps →
  cp_messageIndex cp < fromIndex.
Proof. rewrite list_elem_of_In, filter_In. intros [_ Hlt]. by apply Z.ltb_lt. Qed.

Lemma clearCheckpointsFromIndex_below fromIndex state cp :
  cp ∈ checkpoints (clearCheckpointsFromIndex fromIndex state) →
  cp_messageIndex cp < fromIndex.
Proof. apply kept_checkpoints_below. Qed.

Lemma out_of_range_false messageIndex state :
  0 ≤ messageIndex < messageCount state → out_of_range messageIndex state = false.
Proof.
  intros [Hlo Hhi]. unfold out_of_range.
  rewrite (proj2 (Z.ltb_ge messageIndex 0) Hlo). simpl. by apply Z.leb_gt.
Qed.

(** What the [catch] of a stream action leaves of the messages and
    checkpoints: all of them. *)
Lemma catch_dispatch_frame dfltCode dfltMessage err state :
  allMessages (catch_dispatch dfltCode dfltMessage err state) = allMessages state
  ∧ checkpoints (catch_dispatch dfltCode dfltMessage err state) = checkpoints state.
Proof. unfold catch_dispatch. by destruct (isStreaming state). Qed.

(** *** [sendMessage] *)

(** Nothing in the [try] block of [sendMessage] touches [isStreaming]:
    raised before the block, it is still raised when an error is caught. *)
Lemma sendMessage_try_keeps_streaming env computed messageText attachments state :
  isStreaming (sendMessage_try env computed messageText attachments state).1.2
  = isStreaming state.
Proof.
  unfold sendMessage_try, createAndPersistConversation.
  destruct (Js.truthy_opt (currentConversationId state)); cbn.
  - by destruct (sendToExtension env _).
  - destruct (sendToExtension env (Req_createConversation _ _ _)); cbn; [|done].
    destruct (Js.truthy (newConversationId env)); cbn; [|done].
    by destruct (sendToExtension env _).
Qed.

(** C8. When the request that starts the turn is rejected, [sendMessage]
    ends with [isStreaming], [isWaitingForResponse] (and [isLoading])
    false and the error slot holding the error's code and message, with
    [SEND_ERROR] and a default text where the error has none; the user
    message and the streaming placeholder appended before the request stay
    at the end of the message list, the placeholder still flagged
    streaming.  The store was still streaming when the error was caught:
    nothing between the flags being raised and the [catch] lowers them. *)
Theorem sendMessage_dispatch_failure env computed messageText attachments state err :
  nothing_to_send messageText attachments = false →
  isWaitingForResponse state = false →
  Js.truthy_opt (currentConversationId state) = true ∨ creation_resolves env →
  dispatch_rejects env err →
  let after := (sendMessage env computed messageText attachments state).1 in
  let userMessage :=
    {| msg_id := generateId env 0%nat;
       msg_role := user;
       msg_content := messageText;
       msg_timestamp := Date_now env 2%nat;
       msg_attachments := attachments_or_undefined attachments;
       msg_streaming := None;
       msg_metadata := None;
       msg_parts := None |} in
  let assistantMessage :=
    placeholder computed (generateId env 1%nat) (Date_now env 3%nat) in
  isStreaming after = false
  ∧ isWaitingForResponse after = false
  ∧ isLoading after = false
  ∧ streamingMessageId after = None
  ∧ error after
    = Some {| code := Js.or_else (Js.err_code err) "SEND_ERROR";
              message := Js.or_else (Js.err_message err) "Failed to send message" |}
  ∧ allMessages after = allMessages state ++ [userMessage; assistantMessage]
  ∧ msg_streaming assistantMessage = Some true.
Proof.
  intros Hsend Hidle Hconversation Hdispatch. unfold sendMessage.
  rewrite Hsend.
  change (isWaitingForResponse (set_error None state)) with (isWaitingForResponse state).
  rewrite Hidle. unfold sendMessage_try. cbn [currentConversationId set_error
    set_isLoading set_isStreaming set_isWaitingForResponse].
  destruct (Js.truthy_opt (currentConversationId state)) eqn:Hcurrent.
  - cbn. rewrite Hdispatch. cbn. rewrite <- app_assoc. done.
  - destruct Hconversation as [? | [Hid Hcreate]]; [done|].
    unfold createAndPersistConversation.
    cbn [currentWorkspaceUri negb].
    match goal with
    | |- context [sendToExtension env (Req_createConversation ?i ?t ?w)] =>
        destruct (Hcreate i t w) as [response ->]
    end.
    cbn. rewrite Hid. cbn. rewrite Hdispatch. cbn. rewrite <- app_assoc. done.
Qed.

Lemma sendMessage_dispatch_failure_witness :
  dispatch_rejects offline_env offline
  ∧ error (sendMessage offline_env model_of "Hello" None idle_store).1
    = Some {| code := "SEND_ERROR"; message := "offline" |}
  ∧ length (allMessages (sendMessage offline_env model_of "Hello" None idle_store).1)
    = 2%nat.
Proof.
  assert (Hdispatch : dispatch_rejects offline_env offline) by (intros ? ? ? ?; reflexivity).
  split; [exact Hdispatch|].
  destruct (sendMessage_dispatch_failure offline_env model_of "Hello" None idle_store
              offline eq_refl eq_refl (or_introl eq_refl) Hdispatch)
    as (_ & _ & _ & _ & Herror & Hmessages & _).
  split; [exact Herror | by rewrite Hmessages].
Defined.

(** *** [retryFromMessage] *)

(** C1, as stated, fails: retrying from message 1 of 2 leaves two
    messages, not one, since the placeholder of the new turn is appended
    to the truncated list before [retryFromMessage] returns. *)
Lemma retryFromMessage_length_counterexample :
  Js.truthy_opt (currentConversationId two_messages) = true
  ∧ 0 ≤ 1 < messageCount two_messages
  ∧ length (allMessages
              (retryFromMessage accepting_env model_of 1 id two_messages).1) = 2%nat
  ∧ length (allMessages
              (retryFromMessage accepting_env model_of 1 id two_messages).1) ≠ 1%nat.
Proof. repeat split; try reflexivity; try discriminate. Qed.

(** C1, amended. With a current conversation and [0 <= k < N],
    [retryFromMessage(k)] returns with the first [k] messages followed by
    one new streaming placeholder ([k + 1] messages), and with no
    checkpoint of message index [>= k]: the checkpoints below [k] are
    kept.  The list that is cut is the one the cancel callback leaves when
    a turn was streaming; the callback is assumed to keep at least [k]
    messages. *)
Theorem retryFromMessage_truncates env computed k cancelStream state :
  Js.truthy_opt (currentConversationId state) = true →
  0 ≤ k < messageCount state →
  (isStreaming state = true → k ≤ messageCount (cancelStream state)) →
  let before := if isStreaming state then cancelStream state else state in
  let after := (retryFromMessage env computed k cancelStream state).1 in
  let assistantMessage :=
    placeholder computed (generateId env 0%nat) (Date_now env 0%nat) in
  allMessages after = take (Z.to_nat k) (allMessages before) ++ [assistantMessage]
  ∧ Z.of_nat (length (allMessages after)) = k + 1
  ∧ msg_streaming assistantMessage = Some true
  ∧ checkpoints after
    = List.filter (λ cp, cp_messageIndex cp <? k) (checkpoints before)
  ∧ (∀ cp, cp ∈ checkpoints after → cp_messageIndex cp < k).
Proof.
  intros Hcurrent Hrange Hcancel before after assistantMessage.
  assert (Hkeeps : k ≤ messageCount before).
  { subst before. destruct (isStreaming state); [by apply Hcancel | lia]. }
  assert (Hmessages :
    allMessages after = take (Z.to_nat k) (allMessages before) ++ [assistantMessage]
    ∧ checkpoints after
      = List.filter (λ cp, cp_messageIndex cp <? k) (checkpoints before)).
  { subst after. unfold retryFromMessage. rewrite Hcurrent.
    destruct (allMessages state) as [|m0 rest] eqn:Hlist.
    { unfold messageCount in Hrange. rewrite Hlist in Hrange. simpl in Hrange. lia. }
    rewrite <- Hlist. rewrite (out_of_range_false _ _ Hrange).
    replace (Nat.eqb (length (allMessages state)) 0) with false by by rewrite Hlist.
    cbn [negb orb]. fold before.
    destruct (sendToExtension env (Req_deleteMessage _ _));
      cbn -[catch_dispatch Js.array_slice_to];
      match goal with
      | |- context [sendToExtension env ?request] =>
          destruct (sendToExtension env request)
      end;
      cbn -[Js.array_slice_to]; by rewrite array_slice_to_nonneg by lia. }
  destruct Hmessages as [Hlist Hcheckpoints].
  split; [done|]. split.
  { rewrite Hlist, length_app, length_take. unfold messageCount in Hkeeps.
    simpl. lia. }
  split; [done|]. split; [done|].
  intros cp. rewrite Hcheckpoints. apply kept_checkpoints_below.
Qed.

Lemma retryFromMessage_truncates_witness :
  0 ≤ 1 < messageCount two_messages
  ∧ allMessages (retryFromMessage accepting_env model_of 1 id two_messages).1
    = [text_message "u0" user "question";
       placeholder model_of "id_0" 1700000000000]
  ∧ checkpoints (retryFromMessage accepting_env model_of 1 id two_messages).1
    = [checkpoint_at 0].
Proof.
  assert (Hrange : 0 ≤ 1 < messageCount two_messages)
    by (split; [discriminate | reflexivity]).
  split; [exact Hrange|].
  destruct (retryFromMessage_truncates accepting_env model_of 1 id two_messages
              eq_refl Hrange (λ H, False_ind _ (Bool.diff_false_true H)))
    as (Hlist & _ & _ & Hcheckpoints & _).
  split; [exact Hlist | exact Hcheckpoints].
Defined.

(** *** [editAndRetry] *)

(** C2, as stated, fails: [editAndRetry(1, "new text")] on four messages
    leaves three, not two: message 0, the edited message at index 1 and
    the placeholder at index 2. *)
Lemma editAndRetry_length_counterexample :
  length (allMessages four_messages) = 4%nat
  ∧ length (allMessages
              (editAndRetry accepting_env model_of 1 "new text" None id
                 four_messages).1.2) = 3%nat
  ∧ length (allMessages
              (editAndRetry accepting_env model_of 1 "new text" None id
                 four_messages).1.2) ≠ 2%nat.
Proof. repeat split; try reflexivity; try discriminate. Qed.

(** C2, amended. On a list of four messages with a current conversation,
    [editAndRetry(1, "new text")] resolves with a list of length 3:
    message 0 as it was, the edited message (content and single text part
    "new text") at index 1 and a new streaming placeholder at index 2; no
    checkpoint of message index [>= 1] is left.  When a turn was streaming
    the list edited is the one the cancel callback leaves, assumed to keep
    messages 0 and 1. *)
Theorem editAndRetry_second_of_four env computed attachments cancelStream state :
  Js.truthy_opt (currentConversationId state) = true →
  length (allMessages state) = 4%nat →
  (isStreaming state = true → (2 ≤ length (allMessages (cancelStream state)))%nat) →
  let before := if isStreaming state then cancelStream state else state in
  let result :=
    editAndRetry env computed 1 "new text" attachments cancelStream state in
  let after := result.1.2 in
  let assistantMessage :=
    placeholder computed (generateId env 0%nat) (Date_now env 0%nat) in
  ∃ m0 m1,
    allMessages before !! 0%nat = Some m0
    ∧ allMessages before !! 1%nat = Some m1
    ∧ result.1.1 = Js.Resolved ()
    ∧ allMessages after
      = [m0; edit_message "new text" attachments m1; assistantMessage]
    ∧ length (allMessages after) = 3%nat
    ∧ msg_content (edit_message "new text" attachments m1) = "new text"
    ∧ msg_streaming assistantMessage = Some true
    ∧ (∀ cp, cp ∈ checkpoints after → cp_messageIndex cp < 1).
Proof.
  intros Hcurrent Hfour Hcancel before result after assistantMessage.
  assert (Hkeeps : (2 ≤ length (allMessages before))%nat).
  { subst before. destruct (isStreaming state); [by apply Hcancel | lia]. }
  destruct (allMessages before) as [|m0 [|m1 rest]] eqn:Hlist;
    [simpl in Hkeeps; lia | simpl in Hkeeps; lia |].
  exists m0, m1. split; [done|]. split; [done|].
  assert (Hrange : out_of_range 1 state = false).
  { apply out_of_range_false. unfold messageCount. rewrite Hfour. lia. }
  subst after result. unfold editAndRetry.
  rewrite Hcurrent, Hrange.
  replace (nothing_to_send "new text" attachments) with false by reflexivity.
  cbn [negb andb orb]. fold before.
  cbn [set_error set_isLoading set_isStreaming set_isWaitingForResponse allMessages].
  rewrite Hlist. unfold Js.array_get.
  change (Z.to_nat 1) with 1%nat. cbn -[catch_dispatch clearCheckpointsFromIndex].
  match goal with
  | |- context [sendToExtension env ?request] =>
      destruct (sendToExtension env request)
  end.
  - cbn. repeat (split; [done|]).
    apply kept_checkpoints_below.
  - cbn. repeat (split; [done|]).
    apply kept_checkpoints_below.
Qed.

Lemma editAndRetry_second_of_four_witness :
  length (allMessages four_messages) = 4%nat
  ∧ allMessages
      (editAndRetry accepting_env model_of 1 "new text" None id four_messages).1.2
    = [text_message "a0" assistant "welcome";
       edit_message "new text" None (text_message "u1" user "old text");
       placeholder model_of "id_0" 1700000000000]
  ∧ checkpoints
      (editAndRetry accepting_env model_of 1 "new text" None id four_messages).1.2
    = [checkpoint_at 0].
Proof.
  split; [reflexivity|].
  destruct (editAndRetry_second_of_four accepting_env model_of None id four_messages
              eq_refl eq_refl (λ H, False_ind _ (Bool.diff_false_true H)))
    as (m0 & m1 & H0 & H1 & _ & Hlist & _).
  injection H0 as <-. injection H1 as <-.
  split; [exact Hlist | reflexivity].
Defined.

(** *** [deleteMessage] *)

(** C7. With a current conversation and a valid index, [deleteMessage]
    cuts the message list at [index] and drops the checkpoints from
    [index] on exactly when the backend's answer reports success.  When
    the answer reports no success the store is left as it was, and when
    the call throws only the error slot is set: the messages and the
    checkpoints are unchanged.  "As it was" is the store after the cancel
    callback when a turn was streaming, the given store otherwise. *)
Theorem deleteMessage_only_on_success env targetIndex cancelStream state :
  Js.truthy_opt (currentConversationId state) = true →
  0 ≤ targetIndex < messageCount state →
  let before := if isStreaming state then cancelStream state else state in
  let request := Req_deleteMessage (currentConversationId before) targetIndex in
  let after := (deleteMessage env targetIndex cancelStream state).1 in
  (isStreaming state = false → before = state)
  ∧ match sendToExtension env request with
    | Js.Resolved response =>
        if success response then
          allMessages after = take (Z.to_nat targetIndex) (allMessages before)
          ∧ checkpoints after
            = List.filter (λ cp, cp_messageIndex cp <? targetIndex) (checkpoints before)
          ∧ (∀ cp, cp ∈ checkpoints after → cp_messageIndex cp < targetIndex)
          ∧ error after = error before
        else after = before
    | Js.Rejected err =>
        after
        = set_error
            (Some {| code := Js.or_else (Js.err_code err) "DELETE_ERROR";
                     message := Js.or_else (Js.err_message err) "Delete failed" |})
            before
        ∧ allMessages after = allMessages before
        ∧ checkpoints after = checkpoints before
    end.
Proof.
  intros Hcurrent Hrange before request after.
  split; [by subst before; intros ->|].
  subst after. unfold deleteMessage.
  rewrite Hcurrent, (out_of_range_false _ _ Hrange). cbn [negb].
  fold before. fold request.
  destruct (sendToExtension env request) as [response | err]; [|done].
  destruct (success response); [|done].
  cbn -[Js.array_slice_to]. rewrite array_slice_to_nonneg by lia.
  repeat (split; [done|]). split; [|done].
  apply kept_checkpoints_below.
Qed.

Lemma deleteMessage_only_on_success_witness :
  0 ≤ 1 < messageCount two_messages
  ∧ (deleteMessage refusing_env 1 id two_messages).1 = two_messages
  ∧ allMessages (deleteMessage accepting_env 1 id two_messages).1
    = [text_message "u0" user "question"].
Proof.
  assert (Hrange : 0 ≤ 1 < messageCount two_messages)
    by (split; [discriminate | reflexivity]).
  split; [exact Hrange|]. split.
  - exact (proj2 (deleteMessage_only_on_success refusing_env 1 id two_messages
                    eq_refl Hrange)).
  - exact (proj1 (proj2 (deleteMessage_only_on_success accepting_env 1 id
                           two_messages eq_refl Hrange))).
Defined.

(** When the host is unreachable the deletion leaves both messages and
    both checkpoints and reports [DELETE_ERROR] with the error's text. *)
Lemma deleteMessage_unreachable :
  (deleteMessage unreachable_env 1 id two_messages).1
  = set_error (Some {| code := "DELETE_ERROR"; message := "offline" |}) two_messages.
Proof. reflexivity. Qed.
End MessageActionClaims.

(** * Further properties *)

(** ** StreamAbortManager: what a run of calls keeps *)
Section ManagerRunFacts.
Import StreamAbortManager ManagerRun.

Lemma JsMap_delete_sublist {V} (m : JsMap.t V) k : JsMap.delete k m `sublist_of` m.
Proof.
  induction m as [|[k' v'] m IH]; simpl; [done|].
  destruct (String.eqb k' k); [by apply sublist_cons | by apply sublist_skip].
Qed.

Lemma JsMap_get_delete_ne {V} (m : JsMap.t V) k k' :
  k' ≠ k → JsMap.get k' (JsMap.delete k m) = JsMap.get k' m.
Proof.
  intros Hne. induction m as [|[k0 v0] m IH]; simpl; [done|].
  destruct (String.eqb_spec k0 k) as [->|Hk]; simpl.
  - destruct (String.eqb_spec k k'); [congruence | done].
  - by rewrite IH.
Qed.

Lemma JsMap_get_set_eq {V} (m : JsMap.t V) k v : JsMap.get k (JsMap.set k v m) = Some v.
Proof.
  induction m as [|[k0 v0] m IH]; simpl.
  - by rewrite String.eqb_refl.
  - destruct (String.eqb_spec k0 k) as [->|Hk]; simpl.
    + by rewrite String.eqb_refl.
    + by destruct (String.eqb_spec k0 k).
Qed.

Lemma JsMap_get_set_ne {V} (m : JsMap.t V) k k' v :
  k' ≠ k → JsMap.get k' (JsMap.set k v m) = JsMap.get k' m.
Proof.
  intros Hne. induction m as [|[k0 v0] m IH]; simpl.
  - destruct (String.eqb_spec k k'); [congruence | done].
  - destruct (String.eqb_spec k0 k) as [->|Hk]; simpl.
    + by destruct (String.eqb_spec k k'); [congruence|].
    + by rewrite IH.
Qed.

Lemma JsMap_size_set {V} (m : JsMap.t V) k v :
  JsMap.size (JsMap.set k v m)
  = match JsMap.get k m with
    | Some _ => JsMap.size m
    | None => S (JsMap.size m)
    end.
Proof.
  unfold JsMap.size. induction m as [|[k0 v0] m IH]; simpl; [done|].
  destruct (String.eqb_spec k0 k) as [->|Hk]; simpl; [done|].
  rewrite IH. by destruct (JsMap.get k m).
Qed.

Lemma JsMap_set_values {V} (m : JsMap.t V) k v x :
  x ∈ (JsMap.set k v m).*2 → x = v ∨ x ∈ m.*2.
Proof.
  induction m as [|[k0 v0] m IH]; simpl.
  - rewrite list_elem_of_singleton. by left.
  - destruct (String.eqb k0 k); simpl; rewrite !elem_of_cons.
    + intros [->|?]; [by left | right; by right].
    + intros [->|Hx]; [right; by left|]. destruct (IH Hx); [by left | right; by right].
Qed.

Lemma JsMap_set_values_NoDup {V} (m : JsMap.t V) k v :
  NoDup m.*2 → v ∉ m.*2 → NoDup (JsMap.set k v m).*2.
Proof.
  induction m as [|[k0 v0] m IH]; simpl.
  - intros _ _. apply NoDup_singleton.
  - rewrite NoDup_cons, not_elem_of_cons. intros [Hv0 Hm] [Hne Hv].
    destruct (String.eqb k0 k); simpl; apply NoDup_cons.
    + done.
    + split; [|by apply IH]. intros Hin.
      destruct (JsMap_set_values _ _ _ _ Hin); [congruence | done].
Qed.

Lemma JsMap_get_Some_value {V} (m : JsMap.t V) k v : JsMap.get k m = Some v → v ∈ m.*2.
Proof. intros H. apply (list_elem_of_fmap_2 snd _ _ (JsMap_get_Some_elem _ _ _ H)). Qed.

Lemma tidy_empty : tidy empty.
Proof.
  split; [apply NoDup_nil_2|]. split; [apply NoDup_nil_2|].
  split; intros c Hc; [by apply elem_of_nil in Hc | by apply elem_of_empty in Hc].
Qed.

Lemma tidy_create id s : tidy s → tidy (create id s).2.
Proof.
  intros (Hwf & Hdistinct & Htracked & Haborted).
  assert (Hfresh : allocated s ∉ (controllers s).*2).
  { intros Hin. destruct (Htracked _ Hin). lia. }
  split; [by apply wf_create|]. split; [by apply JsMap_set_values_NoDup|].
  simpl. split.
  - intros c Hc. destruct (JsMap_set_values _ _ _ _ Hc) as [->|Hin].
    + split; [|lia]. intros Hin. apply Haborted in Hin. lia.
    + destruct (Htracked _ Hin). split; [done | lia].
  - intros c Hc. apply Haborted in Hc. lia.
Qed.

Lemma tidy_delete id s : tidy s → tidy (delete id s).
Proof.
  intros (Hwf & Hdistinct & Htracked & Haborted).
  pose proof (JsMap_delete_sublist (controllers s) id) as Hsub.
  split; [by apply wf_delete|]. simpl.
  split; [apply (sublist_NoDup _ (controllers s).*2); [done | apply fmap_sublist, Hsub]|].
  split; [|done]. intros c Hc. apply Htracked.
  apply (elem_of_sublist _ _ _ Hc). apply fmap_sublist, Hsub.
Qed.

Lemma tidy_cancel id s : tidy s → tidy (cancel id s).2.
Proof.
  intros Htidy. destruct (get id s) as [c|] eqn:Hget.
  - rewrite (cancel_present _ _ _ Hget).
    destruct Htidy as (Hwf & Hdistinct & Htracked & Haborted).
    pose proof (JsMap_delete_sublist (controllers s) id) as Hsub.
    split; [by apply JsMap_wf_delete|]. simpl.
    split; [apply (sublist_NoDup _ (controllers s).*2); [done | apply fmap_sublist, Hsub]|].
    assert (Hc : c ∈ (controllers s).*2) by (by eapply JsMap_get_Some_value).
    split.
    + intros c' Hc'.
      assert (Hin : c' ∈ (controllers s).*2)
        by (apply (elem_of_sublist _ _ _ Hc'); apply fmap_sublist, Hsub).
      destruct (Htracked _ Hin) as [Hlive Hlt]. split; [|done].
      rewrite elem_of_union, elem_of_singleton. intros [->|?]; [|done].
      (* the controller of [id] is no value of the map once [id] is removed *)
      clear -Hget Hdistinct Hc'. unfold get in Hget. revert Hget Hdistinct Hc'.
      induction (controllers s) as [|[k0 v0] m IH]; simpl; [done|].
      rewrite NoDup_cons. destruct (String.eqb_spec k0 id) as [->|Hk]; simpl.
      * intros [= ->] [Hnotin _] Hin. done.
      * intros Hg [Hnotin Hm]. rewrite elem_of_cons. intros [->|Hin].
        -- apply Hnotin. by eapply JsMap_get_Some_value.
        -- by apply IH.
    + intros c'. rewrite elem_of_union, elem_of_singleton.
      intros [->|?]; [by apply Htracked | by apply Haborted].
  - by rewrite (cancel_absent _ _ Hget).
Qed.

Lemma tidy_cancelAll {View} (postMessage : WebviewMessage → View → Posted) view s :
  tidy s → tidy (cancelAll postMessage view s).1.
Proof.
  intros (Hwf & Hdistinct & Htracked & Haborted).
  unfold cancelAll.
  pose proof (cancelAll_loop_spec postMessage (controllers s) view s)
    as (H1 & H2 & H3 & H4).
  destruct (cancelAll_loop postMessage (controllers s) view s) as [s1 view1].
  simpl in *. split; [apply NoDup_nil_2|]. split; [apply NoDup_nil_2|].
  split; [intros c Hc; by apply elem_of_nil in Hc|].
  intros c. simpl. rewrite H2, H3, elem_of_union, elem_of_list_to_set.
  intros [Hin|Hin]; [by apply Htracked | by apply Haborted].
Qed.
End ManagerRunFacts.

Section ManagerRunProperties.
Import StreamAbortManager ManagerRun Scenario.

(** X1. Whatever calls are made on a manager that starts empty, in any
    order and with any webview, its registry stays tidy: each
    conversation id is tracked at most once, no two ids share a
    controller, and no tracked controller has been aborted. *)
Theorem run_keeps_registry_tidy {View : Type}
    (postMessage : WebviewMessage → View → @Posted View) (view : option View)
    (calls : list Call) :
  tidy (run postMessage calls (empty, view)).1.
Proof.
  unfold run.
  assert (Hgen : ∀ sv, tidy sv.1 → tidy (foldl (λ sv c, call postMessage c sv) sv calls).1).
  { induction calls as [|c calls IH]; intros sv Hsv; simpl; [done|].
    apply IH. destruct c; simpl.
    - by apply tidy_create.
    - by apply tidy_cancel.
    - by apply tidy_delete.
    - by apply tidy_cancelAll. }
  apply Hgen, tidy_empty.
Qed.

(** X2. On a tidy registry [create(id)] tracks a new controller that is
    not aborted under [id], leaves every other id as it was and aborts
    nothing; a controller it replaces is dropped without being
    signalled.  The size grows by one only when [id] was not tracked. *)
Theorem create_tracks_fresh_controller (s : State) (conversationId : string) :
  tidy s →
  let r := create conversationId s in
  get conversationId r.2 = Some r.1
  ∧ (r.1 ∉ aborted r.2)
  ∧ (∀ other, other ≠ conversationId → get other r.2 = get other s)
  ∧ aborted r.2 = aborted s
  ∧ size r.2 = match get conversationId s with
               | Some _ => size s
               | None => S (size s)
               end
  ∧ (∀ old, get conversationId s = Some old → old ≠ r.1 ∧ (old ∉ aborted r.2)).
Proof.
  intros (Hwf & Hdistinct & Htracked & Haborted) r. subst r. unfold create, get, size.
  simpl. split; [apply JsMap_get_set_eq|].
  split; [intros Hin; apply Haborted in Hin; lia|].
  split; [intros other Hne; by apply JsMap_get_set_ne|].
  split; [done|]. split; [apply JsMap_size_set|].
  intros old Hold. apply JsMap_get_Some_value in Hold.
  destruct (Htracked _ Hold). split; [lia | done].
Qed.

Lemma create_tracks_fresh_controller_witness :
  tidy two_streams
  ∧ get "conv_a" (create "conv_a" two_streams).2 = Some 2%nat
  ∧ size (create "conv_a" two_streams).2 = 2%nat
  ∧ aborted (create "conv_a" two_streams).2 = aborted two_streams.
Proof.
  assert (Htidy : tidy two_streams) by (apply tidy_create, tidy_create, tidy_empty).
  split; [exact Htidy|].
  destruct (create_tracks_fresh_controller two_streams "conv_a" Htidy)
    as (Hget & _ & _ & Haborted & Hsize & _).
  split; [exact Hget|]. split; [exact Hsize | exact Haborted].
Defined.

(** X3. [delete(id)] removes the entry of [id] and signals nothing: the
    aborted controllers are the same, [id] is no longer tracked, every
    other id is as it was, and the map is the one [cancel(id)] leaves. *)
Theorem delete_untracks_without_abort (s : State) (conversationId : string) :
  wf s →
  let s' := delete conversationId s in
  aborted s' = aborted s
  ∧ get conversationId s' = None
  ∧ (∀ other, other ≠ conversationId → get other s' = get other s)
  ∧ controllers s' = controllers (cancel conversationId s).2
  ∧ (size s' ≤ size s ≤ S (size s'))%nat.
Proof.
  intros Hwf s'. subst s'. unfold delete, get, size. simpl.
  split; [done|]. split; [by apply JsMap_get_delete|].
  split; [intros other Hne; by apply JsMap_get_delete_ne|].
  destruct (JsMap.get conversationId (controllers s)) as [c|] eqn:Hget.
  - rewrite (cancel_present _ _ _ Hget). simpl. split; [done|].
    rewrite (JsMap_size_delete _ _ _ Hget). lia.
  - rewrite (cancel_absent _ _ Hget). rewrite (JsMap_delete_absent _ _ Hget).
    split; [done | lia].
Qed.

Lemma delete_untracks_without_abort_witness :
  wf two_streams
  ∧ get "conv_a" (delete "conv_a" two_streams) = None
  ∧ aborted (delete "conv_a" two_streams) = aborted two_streams.
Proof.
  assert (Hwf : wf two_streams) by (apply wf_create, wf_create, wf_empty).
  split; [exact Hwf|].
  destruct (delete_untracks_without_abort two_streams "conv_a" Hwf)
    as (Haborted & Hget & _).
  split; [exact Hget | exact Haborted].
Defined.

(** X4. Cancelling one conversation spares the others: on a tidy
    registry, a controller tracked under another id is still tracked
    under it after [cancel(id)] and is still not aborted. *)
Theorem cancel_spares_other_conversations (s : State)
    (conversationId other : string) (controller : AbortController) :
  tidy s →
  other ≠ conversationId →
  get other s = Some controller →
  get other (cancel conversationId s).2 = Some controller
  ∧ (controller ∉ aborted (cancel conversationId s).2).
Proof.
  intros Htidy Hne Hother.
  pose proof (tidy_cancel conversationId s Htidy) as (_ & _ & Htracked & _).
  assert (Hkept : get other (cancel conversationId s).2 = Some controller).
  { unfold get in *. destruct (JsMap.get conversationId (controllers s)) as [c|] eqn:Hget.
    - rewrite (cancel_present _ _ _ Hget). simpl. by rewrite JsMap_get_delete_ne.
    - by rewrite (cancel_absent _ _ Hget). }
  split; [done|]. apply Htracked. by eapply JsMap_get_Some_value.
Qed.

Lemma cancel_spares_other_conversations_witness :
  tidy two_streams
  ∧ get "conv_b" two_streams = Some 1%nat
  ∧ get "conv_b" (cancel "conv_a" two_streams).2 = Some 1%nat
  ∧ (1%nat ∉ aborted (cancel "conv_a" two_streams).2).
Proof.
  assert (Htidy : tidy two_streams) by (apply tidy_create, tidy_create, tidy_empty).
  split; [exact Htidy|]. split; [reflexivity|].
  apply (cancel_spares_other_conversations two_streams "conv_a" "conv_b" 1%nat Htidy);
    [discriminate | reflexivity].
Defined.

(** X5. After [cancelAll] nothing is left to cancel: [cancel] returns
    [false] for every id, and a second [cancelAll] aborts no controller
    and posts no notification. *)
Theorem cancelAll_leaves_nothing_to_cancel {View : Type}
    (postMessage : WebviewMessage → View → @Posted View) (view : option View)
    (s : State) :
  let r := cancelAll postMessage view s in
  (∀ conversationId, cancel conversationId r.1 = (false, r.1))
  ∧ cancelAll postMessage r.2 r.1 = r.
Proof.
  unfold cancelAll.
  destruct (cancelAll_loop postMessage (controllers s) view s) as [s1 view1].
  simpl. split; [done|]. done.
Qed.
End ManagerRunProperties.

(** ** messageActions.ts: the remaining actions *)
Section MessageActionsRestFacts.
Import ChatStore Extension ConversationActions CheckpointActions MessageActions.
Import MessageActionsRest Scenario.

Lemma scan_down_skip i (skipped rest : list Message) :
  Forall (λ m, is_assistant m = false) skipped →
  scan_down i (skipped ++ rest) = scan_down (i - Z.of_nat (length skipped)) rest.
Proof.
  intros Hskipped. revert i.
  induction Hskipped as [|m skipped Hm _ IH]; intros i; simpl.
  - f_equal. lia.
  - rewrite Hm, IH. f_equal. lia.
Qed.


Lemma lastAssistantIndex_none (messages : list Message) :
  Forall (λ m, is_assistant m = false) messages →
  lastAssistantIndex messages = -1.
Proof.
  intros Hnone. unfold lastAssistantIndex.
  rewrite <- (app_nil_r (rev messages)).
  by rewrite scan_down_skip by by apply List.Forall_rev.
Qed.

End MessageActionsRestFacts.

Section MessageActionsRestProperties.
Import ChatStore Extension ConversationActions CheckpointActions MessageActions.
Import MessageActionsRest Scenario Scenario2.



(** X7. Without an assistant message in the list, [retryLastMessage]
    leaves the store as it was and sends nothing. *)
Theorem retryLastMessage_without_assistant env computed cancelStream state :
  Forall (λ m, is_assistant m = false) (allMessages state) →
  retryLastMessage env computed cancelStream state = (state, []).
Proof.
  intros Hnone. unfold retryLastMessage.
  rewrite (lastAssistantIndex_none _ Hnone). simpl.
  by destruct (Nat.eqb (length (allMessages state)) 0).
Qed.

Lemma retryLastMessage_without_assistant_witness :
  Forall (λ m, is_assistant m = false)
    (allMessages (set_allMessages [text_message "u0" user "question"] idle_store))
  ∧ retryLastMessage accepting_env model_of id
      (set_allMessages [text_message "u0" user "question"] idle_store)
    = (set_allMessages [text_message "u0" user "question"] idle_store, []).
Proof.
  assert (Hnone : Forall (λ m, is_assistant m = false)
            (allMessages (set_allMessages [text_message "u0" user "question"] idle_store)))
    by (by repeat constructor).
  split; [exact Hnone|].
  exact (retryLastMessage_without_assistant accepting_env model_of id _ Hnone).
Defined.

(** X8. [retryAfterError] never removes anything.  It does nothing when
    there is no current conversation or the store is loading or
    streaming; otherwise it appends one streaming placeholder to the
    messages it found, keeps the checkpoints, and sends one [retryStream]
    request.  When that request is rejected the placeholder stays, the
    streaming and waiting flags are lowered and the error slot holds the
    error, [RETRY_ERROR] by default. *)
Theorem retryAfterError_appends_only env computed state :
  let result := retryAfterError env computed state in
  let request := Req_retryStream (currentConversationId state) (configId state) in
  if negb (Js.truthy_opt (currentConversationId state))
     || isLoading state || isStreaming state
  then result = (state, [])
  else
    allMessages result.1
    = allMessages state
      ++ [placeholder computed (generateId env 0%nat) (Date_now env 0%nat)]
    ∧ checkpoints result.1 = checkpoints state
    ∧ result.2 = [request]
    ∧ isLoading result.1 = false
    ∧ match sendToExtension env request with
      | Js.Resolved _ =>
          isStreaming result.1 = true
          ∧ isWaitingForResponse result.1 = true
          ∧ streamingMessageId result.1 = Some (generateId env 0%nat)
          ∧ error result.1 = None
      | Js.Rejected err =>
          isStreaming result.1 = false
          ∧ isWaitingForResponse result.1 = false
          ∧ streamingMessageId result.1 = None
          ∧ error result.1
            = Some {| code := Js.or_else (Js.err_code err) "RETRY_ERROR";
                      message := Js.or_else (Js.err_message err) "Retry failed" |}
      end.
Proof.
  intros result request. subst result. unfold retryAfterError.
  destruct (Js.truthy_opt (currentConversationId state)); [|done].
  destruct (isLoading state), (isStreaming state); try done.
  cbn -[catch_dispatch]. fold request.
  destruct (sendToExtension env request); cbn; done.
Qed.

(** X9. With a current conversation and a valid index,
    [deleteSingleMessage] removes exactly the message at the index when
    the host reports success: the messages before it and after it stay,
    in order, and the list is one shorter.  The checkpoints are left as
    they were, also those of later messages.  Without success, or when
    the request throws, no message is removed. *)
Theorem deleteSingleMessage_removes_one sendToExtension targetIndex cancelStream state :
  Js.truthy_opt (currentConversationId state) = true →
  0 ≤ targetIndex < messageCount state →
  (isStreaming state = true →
   length (allMessages (cancelStream state)) = length (allMessages state)) →
  let before := if isStreaming state then cancelStream state else state in
  let request :=
    {| sd_conversationId := currentConversationId before;
       sd_targetIndex := targetIndex |} in
  let result := deleteSingleMessage sendToExtension targetIndex cancelStream state in
  result.2 = [request]
  ∧ checkpoints result.1 = checkpoints before
  ∧ match sendToExtension request with
    | Js.Resolved true =>
        allMessages result.1
        = take (Z.to_nat targetIndex) (allMessages before)
          ++ drop (S (Z.to_nat targetIndex)) (allMessages before)
        ∧ S (length (allMessages result.1)) = length (allMessages before)
    | Js.Resolved false => result.1 = before
    | Js.Rejected err => allMessages result.1 = allMessages before
    end.
Proof.
  intros Hcurrent Hrange Hcancel before request result.
  assert (Hlength : length (allMessages before) = length (allMessages state)).
  { subst before. destruct (isStreaming state); [by apply Hcancel | done]. }
  subst result. unfold deleteSingleMessage.
  rewrite Hcurrent, (out_of_range_false _ _ Hrange). cbn [negb].
  fold before. fold request. cbn [fst snd].
  split; [done|].
  destruct (sendToExtension request) as [[|]|err]; cbn -[Js.array_slice_to]; try done.
  split; [done|].
  rewrite array_slice_to_nonneg by lia. unfold JsArray.slice_from.
  replace (targetIndex + 1 <? 0) with false by (symmetry; apply Z.ltb_ge; lia).
  replace (Z.to_nat (targetIndex + 1)) with (S (Z.to_nat targetIndex)) by lia.
  split; [done|].
  unfold messageCount in Hrange.
  rewrite length_app, length_take, length_drop. lia.
Qed.

Lemma deleteSingleMessage_removes_one_witness :
  0 ≤ 1 < messageCount four_messages
  ∧ allMessages (deleteSingleMessage single_deletion_ok 1 id four_messages).1
    = [text_message "a0" assistant "welcome"; text_message "a2" assistant "answer";
       text_message "u3" user "thanks"]
  ∧ checkpoints (deleteSingleMessage single_deletion_ok 1 id four_messages).1
    = checkpoints four_messages.
Proof.
  assert (Hrange : 0 ≤ 1 < messageCount four_messages)
    by (split; [discriminate | reflexivity]).
  split; [exact Hrange|].
  destruct (deleteSingleMessage_removes_one single_deletion_ok 1 id four_messages
              eq_refl Hrange (λ H, False_ind _ (Bool.diff_false_true H)))
    as (_ & Hcheckpoints & Hmessages & _).
  split; [exact Hmessages | exact Hcheckpoints].
Defined.
End MessageActionsRestProperties.

(** ** [sendMessage]: a turn that starts *)
Section SendMessageFacts.
Import ChatStore Extension ConversationActions CheckpointActions MessageActions.
Import MessageActionsRest Hosts Scenario Scenario2.

Lemma sendMessage_resolved env computed messageText attachments state :
  nothing_to_send messageText attachments = false →
  isWaitingForResponse state = false →
  Js.truthy_opt (currentConversationId state) = true ∨ creation_resolves env →
  dispatch_resolves env →
  let after := (sendMessage env computed messageText attachments state).1 in
  isStreaming after = true
  ∧ isWaitingForResponse after = true
  ∧ isLoading after = false
  ∧ error after = None
  ∧ streamingMessageId after = Some (generateId env 1%nat)
  ∧ allMessages after
    = allMessages state
      ++ [userMessage_of env messageText attachments;
          placeholder computed (generateId env 1%nat) (Date_now env 3%nat)]
  ∧ checkpoints after = checkpoints state.
Proof.
  intros Hsend Hidle Hconversation Hdispatch. unfold sendMessage.
  rewrite Hsend.
  change (isWaitingForResponse (set_error None state)) with (isWaitingForResponse state).
  rewrite Hidle. unfold sendMessage_try. cbn [currentConversationId set_error
    set_isLoading set_isStreaming set_isWaitingForResponse].
  destruct (Js.truthy_opt (currentConversationId state)) eqn:Hcurrent.
  - cbn.
    match goal with
    | |- context [sendToExtension env (Req_chatStream ?c ?g ?m ?a)] =>
        destruct (Hdispatch c g m a) as [response ->]
    end.
    cbn. rewrite <- app_assoc. done.
  - destruct Hconversation as [? | [Hid Hcreate]]; [done|].
    unfold createAndPersistConversation.
    cbn [currentWorkspaceUri negb].
    match goal with
    | |- context [sendToExtension env (Req_createConversation ?i ?t ?w)] =>
        destruct (Hcreate i t w) as [response ->]
    end.
    cbn. rewrite Hid. cbn.
    match goal with
    | |- context [sendToExtension env (Req_chatStream ?c ?g ?m ?a)] =>
        destruct (Hdispatch c g m a) as [response' ->]
    end.
    cbn. rewrite <- app_assoc. done.
Qed.

Lemma sendMessage_while_waiting env computed messageText attachments state :
  isWaitingForResponse state = true →
  (sendMessage env computed messageText attachments state).2 = []
  ∧ allMessages (sendMessage env computed messageText attachments state).1
    = allMessages state.
Proof.
  intros Hwaiting. unfold sendMessage.
  destruct (nothing_to_send messageText attachments); [done|].
  change (isWaitingForResponse (set_error None state)) with (isWaitingForResponse state).
  by rewrite Hwaiting.
Qed.

Lemma accepting_env_resolves : dispatch_resolves accepting_env ∧ creation_resolves accepting_env.
Proof.
  split; [by intros; eexists|]. split; [done | by intros; eexists].
Qed.

(** X10. When a turn starts ([sendMessage] with something to send, no
    response awaited, a conversation at hand or created, the request
    accepted) the store ends waiting and streaming, not loading and
    without error; the message list is the old one followed by the user
    message and one streaming placeholder, and [streamingMessageId] is the
    id of that placeholder, the last message. *)
Theorem sendMessage_starts_turn env computed messageText attachments state :
  nothing_to_send messageText attachments = false →
  isWaitingForResponse state = false →
  Js.truthy_opt (currentConversationId state) = true ∨ creation_resolves env →
  dispatch_resolves env →
  let after := (sendMessage env computed messageText attachments state).1 in
  ∃ assistantMessage,
    allMessages after
    = allMessages state ++ [userMessage_of env messageText attachments; assistantMessage]
    ∧ msg_content (userMessage_of env messageText attachments) = messageText
    ∧ msg_role assistantMessage = assistant
    ∧ msg_streaming assistantMessage = Some true
    ∧ msg_content assistantMessage = ""
    ∧ streamingMessageId after = Some (msg_id assistantMessage)
    ∧ isWaitingForResponse after = true
    ∧ isStreaming after = true
    ∧ isLoading after = false
    ∧ error after = None.
Proof.
  intros Hsend Hidle Hconversation Hdispatch after.
  destruct (sendMessage_resolved env computed messageText attachments state
              Hsend Hidle Hconversation Hdispatch)
    as (Hstreaming & Hwaiting & Hloading & Herror & Hid & Hmessages & _).
  exists (placeholder computed (generateId env 1%nat) (Date_now env 3%nat)).
  subst after. by rewrite Hmessages, Hid.
Qed.

Lemma sendMessage_starts_turn_witness :
  dispatch_resolves accepting_env
  ∧ length (allMessages (sendMessage accepting_env model_of "Hello" None idle_store).1)
    = 2%nat
  ∧ isWaitingForResponse (sendMessage accepting_env model_of "Hello" None idle_store).1
    = true.
Proof.
  destruct accepting_env_resolves as [Hdispatch _].
  split; [exact Hdispatch|].
  destruct (sendMessage_starts_turn accepting_env model_of "Hello" None idle_store
              eq_refl eq_refl (or_introl eq_refl) Hdispatch)
    as (assistantMessage & Hmessages & _ & _ & _ & _ & _ & Hwaiting & _).
  split; [by rewrite Hmessages | exact Hwaiting].
Defined.

(** X11. One turn at a time: once [sendMessage] has started a turn, a
    further [sendMessage], whatever its text, attachments and host,
    appends no message and sends no request. *)
Theorem sendMessage_twice_sends_once env computed messageText attachments state
    env' computed' messageText' attachments' :
  nothing_to_send messageText attachments = false →
  isWaitingForResponse state = false →
  Js.truthy_opt (currentConversationId state) = true ∨ creation_resolves env →
  dispatch_resolves env →
  let first := sendMessage env computed messageText attachments state in
  let second := sendMessage env' computed' messageText' attachments' first.1 in
  second.2 = [] ∧ allMessages second.1 = allMessages first.1.
Proof.
  intros Hsend Hidle Hconversation Hdispatch first second.
  destruct (sendMessage_resolved env computed messageText attachments state
              Hsend Hidle Hconversation Hdispatch) as (_ & Hwaiting & _).
  by apply sendMessage_while_waiting.
Qed.

Lemma sendMessage_twice_sends_once_witness :
  dispatch_resolves accepting_env
  ∧ (sendMessage accepting_env model_of "again" None
       (sendMessage accepting_env model_of "Hello" None idle_store).1).2 = [].
Proof.
  destruct accepting_env_resolves as [Hdispatch _].
  split; [exact Hdispatch|].
  exact (proj1 (sendMessage_twice_sends_once accepting_env model_of "Hello" None
                  idle_store accepting_env model_of "again" None
                  eq_refl eq_refl (or_introl eq_refl) Hdispatch)).
Defined.
End SendMessageFacts.

Section GuardsAndEdits.
Import ChatStore Extension ConversationActions CheckpointActions MessageActions.
Import MessageActionsRest Hosts Scenario Scenario2.

(** X12. When no conversation is current and its creation is rejected,
    [sendMessage] appends no message and never sends the request that
    starts a turn: the only request is the creation.  The flags are
    lowered, no conversation becomes current, and the error slot reports
    [SEND_ERROR], "Failed to create conversation". *)
Theorem sendMessage_without_conversation env computed messageText attachments state :
  nothing_to_send messageText attachments = false →
  isWaitingForResponse state = false →
  Js.truthy_opt (currentConversationId state) = false →
  creation_rejected env →
  let result := sendMessage env computed messageText attachments state in
  allMessages result.1 = allMessages state
  ∧ conversations result.1 = conversations state
  ∧ currentConversationId result.1 = currentConversationId state
  ∧ (∃ conversationId title workspaceUri,
       result.2 = [Req_createConversation conversationId title workspaceUri])
  ∧ error result.1
    = Some {| code := "SEND_ERROR"; message := "Failed to create conversation" |}
  ∧ isStreaming result.1 = false
  ∧ isWaitingForResponse result.1 = false
  ∧ isLoading result.1 = false
  ∧ streamingMessageId result.1 = None.
Proof.
  intros Hsend Hidle Hnone Hrejected. unfold sendMessage. rewrite Hsend.
  change (isWaitingForResponse (set_error None state)) with (isWaitingForResponse state).
  rewrite Hidle. unfold sendMessage_try. cbn [currentConversationId set_error
    set_isLoading set_isStreaming set_isWaitingForResponse].
  rewrite Hnone. unfold createAndPersistConversation. cbn [currentWorkspaceUri negb].
  match goal with
  | |- context [sendToExtension env (Req_createConversation ?i ?t ?w)] =>
      destruct (Hrejected i t w) as [err ->]
  end.
  cbn. repeat (split; [done|]). split; [by eexists _, _, _ | done].
Qed.

Lemma sendMessage_without_conversation_witness :
  creation_rejected unreachable_env
  ∧ allMessages (sendMessage unreachable_env model_of "Hello" None fresh_store).1 = []
  ∧ error (sendMessage unreachable_env model_of "Hello" None fresh_store).1
    = Some {| code := "SEND_ERROR"; message := "Failed to create conversation" |}.
Proof.
  assert (Hrejected : creation_rejected unreachable_env) by (by intros; eexists).
  split; [exact Hrejected|].
  destruct (sendMessage_without_conversation unreachable_env model_of "Hello" None
              fresh_store eq_refl eq_refl eq_refl Hrejected)
    as (Hmessages & _ & _ & _ & Herror & _).
  split; [exact Hmessages | exact Herror].
Defined.

(** X13. An index outside the message list, or no current conversation,
    stops [retryFromMessage], [editAndRetry], [deleteMessage] and
    [deleteSingleMessage] before they do anything: the store is left as
    it was, nothing is sent, and the cancel callback is not run. *)
Theorem actions_reject_bad_index env computed hostDeletes index newMessage attachments
    cancelStream state :
  out_of_range index state = true
  ∨ Js.truthy_opt (currentConversationId state) = false →
  retryFromMessage env computed index cancelStream state = (state, [])
  ∧ editAndRetry env computed index newMessage attachments cancelStream state
    = (Js.Resolved (), state, [])
  ∧ deleteMessage env index cancelStream state = (state, [])
  ∧ deleteSingleMessage hostDeletes index cancelStream state = (state, []).
Proof.
  intros Hbad.
  unfold retryFromMessage, editAndRetry, deleteMessage, deleteSingleMessage.
  destruct Hbad as [Hbad | Hbad]; rewrite Hbad; cbn [negb orb];
    rewrite ?orb_true_r; repeat split; repeat case_match; done.
Qed.

Lemma actions_reject_bad_index_witness :
  out_of_range 2 two_messages = true
  ∧ retryFromMessage accepting_env model_of 2 set_isStreaming_off two_messages
    = (two_messages, [])
  ∧ deleteMessage accepting_env (-1) set_isStreaming_off two_messages
    = (two_messages, []).
Proof.
  split; [reflexivity|]. split.
  - exact (proj1 (actions_reject_bad_index accepting_env model_of single_deletion_ok
                    2 "x" None set_isStreaming_off two_messages (or_introl eq_refl))).
  - exact (proj1 (proj2 (proj2 (actions_reject_bad_index accepting_env model_of
                    single_deletion_ok (-1) "x" None set_isStreaming_off two_messages
                    (or_introl eq_refl))))).
Defined.



(** X15. The backend deletion of [retryFromMessage] is best effort: two
    hosts that differ only in how they settle the [deleteMessage]
    request leave the same store and the same requests sent. *)
Theorem retryFromMessage_ignores_deletion_outcome env1 env2 computed k cancelStream
    state :
  same_but_deletion env1 env2 →
  retryFromMessage env1 computed k cancelStream state
  = retryFromMessage env2 computed k cancelStream state.
Proof.
  intros (Hids & Hnow & Hretry). unfold retryFromMessage.
  destruct (negb (Js.truthy_opt (currentConversationId state))
            || Nat.eqb (length (allMessages state)) 0); [done|].
  destruct (out_of_range k state); [done|].
  rewrite Hids, Hnow.
  destruct (sendToExtension env1 (Req_deleteMessage _ _)),
           (sendToExtension env2 (Req_deleteMessage _ _)); by rewrite Hretry.
Qed.

Lemma retryFromMessage_ignores_deletion_outcome_witness :
  same_but_deletion accepting_env deletion_fails_env
  ∧ retryFromMessage accepting_env model_of 1 id two_messages
    = retryFromMessage deletion_fails_env model_of 1 id two_messages.
Proof.
  assert (Hsame : same_but_deletion accepting_env deletion_fails_env) by done.
  split; [exact Hsame|].
  exact (retryFromMessage_ignores_deletion_outcome accepting_env deletion_fails_env
           model_of 1 id two_messages Hsame).
Defined.
End GuardsAndEdits.

(** ** conversationActions.ts *)
Section ConversationActionsFacts.
Import ChatStore Extension ConversationActions MessageActions StreamHandler.
Import ConversationActionsRest Scenario Scenario2 Scenario3.

Lemma handleStreamChunk_other_conversation handlers chunk ctx state :
  Some (sc_conversationId chunk) ≠ currentConversationId state →
  handleStreamChunk handlers chunk ctx state = state.
Proof. intros Hother. unfold handleStreamChunk. by rewrite bool_decide_eq_true_2. Qed.

Lemma find_set_messageCount id n convs conv :
  List.find (λ c, String.eqb (conv_id c) id) convs = Some conv →
  ∃ conv',
    List.find (λ c, String.eqb (conv_id c) id) (set_messageCount id n convs) = Some conv'
    ∧ conv_id conv' = id
    ∧ conv_messageCount conv' = n
    ∧ conv_title conv' = conv_title conv.
Proof.
  induction convs as [|c rest IH]; simpl; [done|].
  destruct (String.eqb (conv_id c) id) eqn:Hc; simpl.
  - intros [= <-]. rewrite Hc. eexists. split; [done|].
    by apply String.eqb_eq in Hc.
  - rewrite Hc. apply IH.
Qed.

(** X16. [createNewConversation] ends with no current conversation, no
    message, no checkpoint, no error and every flag lowered, whatever the
    store held and whatever the cancel callback did; from then on
    [handleStreamChunk] leaves the store as it is for every chunk, so a
    late event of the abandoned turn cannot touch the new conversation. *)
Theorem createNewConversation_isolates cancelStreamAndRejectTools state handlers chunk
    ctx :
  let fresh := createNewConversation cancelStreamAndRejectTools state in
  currentConversationId fresh = None
  ∧ allMessages fresh = []
  ∧ checkpoints fresh = []
  ∧ error fresh = None
  ∧ isLoading fresh = false
  ∧ isStreaming fresh = false
  ∧ isWaitingForResponse fresh = false
  ∧ streamingMessageId fresh = None
  ∧ handleStreamChunk handlers chunk ctx fresh = fresh.
Proof.
  intros fresh. do 8 (split; [reflexivity|]).
  by apply handleStreamChunk_other_conversation.
Qed.

(** X17. [switchConversation] to an id that no conversation of the list
    has does nothing: the store is left as it was, the callback is not
    run and nothing is requested. *)
Theorem switchConversation_unknown_id host contentToMessageEnhanced id
    cancelStreamAndRejectTools state :
  Forall (λ c, conv_id c ≠ id) (conversations state) →
  switchConversation host contentToMessageEnhanced id cancelStreamAndRejectTools state
  = (state, []).
Proof.
  intros Hunknown. unfold switchConversation.
  destruct (List.find _ (conversations state)) as [conv|] eqn:Hfind; [|done].
  apply find_some in Hfind as [Hin Hid]. apply String.eqb_eq in Hid.
  rewrite Forall_forall in Hunknown. apply list_elem_of_In in Hin.
  by destruct (Hunknown _ Hin).
Qed.

Lemma switchConversation_unknown_id_witness :
  Forall (λ c, conv_id c ≠ "conv_z") (conversations two_conversations)
  ∧ switchConversation full_host parse_text "conv_z" id two_conversations
    = (two_conversations, []).
Proof.
  assert (Hunknown : Forall (λ c, conv_id c ≠ "conv_z") (conversations two_conversations))
    by (repeat constructor; discriminate).
  split; [exact Hunknown|].
  exact (switchConversation_unknown_id full_host parse_text "conv_z" id
           two_conversations Hunknown).
Defined.

(** X18. [switchConversation] to a persisted conversation of the list
    (of non-empty id) makes it current with every flag lowered, asks for its messages and
    then its checkpoints, and ends with the parsed history as message
    list (none, and [LOAD_ERROR] in the error slot, when the history
    request is rejected) and the loaded checkpoints (none when missing or
    rejected).  The conversation's [messageCount] is the length of the
    message list, and chunks of any other conversation are ignored from
    then on. *)
Theorem switchConversation_loads host contentToMessageEnhanced id
    cancelStreamAndRejectTools state conv :
  List.find (λ c, String.eqb (conv_id c) id) (conversations state) = Some conv →
  conv_isPersisted conv = true →
  Js.truthy id = true →
  (isWaitingForResponse state || isStreaming state = true →
   conversations (cancelStreamAndRejectTools state) = conversations state) →
  let result :=
    switchConversation host contentToMessageEnhanced id cancelStreamAndRejectTools
      state in
  currentConversationId result.1 = Some id
  ∧ isLoading result.1 = false
  ∧ isStreaming result.1 = false
  ∧ isWaitingForResponse result.1 = false
  ∧ streamingMessageId result.1 = None
  ∧ result.2 = [Call_getMessages (Some id); Call_getCheckpoints (Some id)]
  ∧ match getMessages host (Some id) with
    | Js.Resolved history =>
        allMessages result.1 = map contentToMessageEnhanced history
        ∧ error result.1 = None
    | Js.Rejected err =>
        allMessages result.1 = []
        ∧ error result.1
          = Some {| code := Js.or_else (Js.err_code err) "LOAD_ERROR";
                    message := Js.or_else (Js.err_message err)
                                 "Failed to load history" |}
    end
  ∧ checkpoints result.1
    = match getCheckpoints host (Some id) with
      | Js.Resolved (Some loaded) => loaded
      | _ => []
      end
  ∧ (∃ conv',
       List.find (λ c, String.eqb (conv_id c) id) (conversations result.1) = Some conv'
       ∧ conv_messageCount conv' = messageCount result.1)
  ∧ (∀ handlers chunk ctx,
       sc_conversationId chunk ≠ id →
       handleStreamChunk handlers chunk ctx result.1 = result.1).
Proof.
  intros Hfind Hpersisted Hnonempty Hcallback result.
  assert (Hid : Js.truthy_opt (Some id) = true) by done.
  subst result. unfold switchConversation. rewrite Hfind, Hpersisted.
  set (before := if isWaitingForResponse state || isStreaming state
                 then cancelStreamAndRejectTools state else state).
  assert (Hconvs : conversations before = conversations state).
  { subst before. destruct (isWaitingForResponse state || isStreaming state);
      [by apply Hcallback | done]. }
  unfold loadHistory, loadCheckpoints.
  cbn [currentConversationId set_currentConversationId set_allMessages set_checkpoints
       set_error set_isLoading set_isStreaming set_streamingMessageId
       set_isWaitingForResponse].
  rewrite Hid. cbn [negb].
  destruct (getMessages host (Some id)) as [history|err];
    cbn -[set_messageCount]; rewrite Hnonempty; cbn -[set_messageCount];
    destruct (getCheckpoints host (Some id)) as [[loaded|]|err'];
    cbn -[set_messageCount]; rewrite Hconvs;
    (do 8 (split; [done|]); split;
     [ match goal with
       | |- context [set_messageCount id ?n _] =>
           destruct (find_set_messageCount id n _ _ Hfind) as (conv' & H1 & _ & H2 & _)
       end;
       exists conv'; split; [exact H1 | exact H2]
     | intros handlers chunk ctx Hother;
       apply handleStreamChunk_other_conversation; simpl; congruence ]).
Qed.

Lemma switchConversation_loads_witness :
  List.find (λ c, String.eqb (conv_id c) "conv_b") (conversations two_conversations)
  = Some (conversation "conv_b" true)
  ∧ currentConversationId
      (switchConversation full_host parse_text "conv_b" id two_conversations).1
    = Some "conv_b"
  ∧ allMessages
      (switchConversation full_host parse_text "conv_b" id two_conversations).1
    = map parse_text [Js.Str "one"; Js.Str "two"; Js.Str "three"]
  ∧ checkpoints
      (switchConversation full_host parse_text "conv_b" id two_conversations).1
    = [checkpoint_at 2].
Proof.
  split; [reflexivity|].
  destruct (switchConversation_loads full_host parse_text "conv_b" id two_conversations
              (conversation "conv_b" true) eq_refl eq_refl eq_refl
              (λ H, False_ind _ (Bool.diff_false_true H)))
    as (Hcurrent & _ & _ & _ & _ & _ & Hmessages & Hcheckpoints & _).
  split; [exact Hcurrent|]. split; [exact (proj1 Hmessages) | exact Hcheckpoints].
Defined.

(** X19. Deletions of one conversation do not overlap and unknown ids
    are refused: while an id is in the set of conversations being
    deleted, or when no conversation of the list has it,
    [deleteConversation] returns [false], leaves the store as it was and
    sends nothing to the backend. *)
Theorem deleteConversation_refuses host id switchConversationFn createNewConversationFn
    store :
  id ∈ deletingConversationIds store
  ∨ Forall (λ c, conv_id c ≠ id) (conversations (chat store)) →
  deleteConversation host id switchConversationFn createNewConversationFn store
  = (false, store, []).
Proof.
  intros Hrefused. unfold deleteConversation.
  destruct (List.find _ (conversations (chat store))) as [conv|] eqn:Hfind; [|done].
  destruct Hrefused as [Hdeleting | Hunknown].
  - unfold isDeletingConversation. by rewrite bool_decide_eq_true_2.
  - apply find_some in Hfind as [Hin Hid]. apply String.eqb_eq in Hid.
    rewrite Forall_forall in Hunknown. apply list_elem_of_In in Hin.
    by destruct (Hunknown _ Hin).
Qed.

Lemma deleteConversation_refuses_witness :
  "conv_b" ∈ deletingConversationIds (conversations_store {[ "conv_b" ]})
  ∧ deleteConversation full_host "conv_b" switch_to start_afresh
      (conversations_store {[ "conv_b" ]})
    = (false, conversations_store {[ "conv_b" ]}, []).
Proof.
  assert (Hdeleting :
    "conv_b" ∈ deletingConversationIds (conversations_store {[ "conv_b" ]}))
    by (change ("conv_b" ∈ ({[ "conv_b" ]} : gset string)); by apply elem_of_singleton).
  split; [exact Hdeleting|].
  exact (deleteConversation_refuses full_host "conv_b" switch_to start_afresh
           (conversations_store {[ "conv_b" ]}) (or_introl Hdeleting)).
Defined.

(** X20. [deleteConversation] never leaves its mark behind: an id that
    was not in the set of conversations being deleted is not in it when
    the call returns, whether the backend deletion resolved or was
    rejected and whatever the callbacks did. *)
Theorem deleteConversation_releases_lock host id switchConversationFn
    createNewConversationFn store :
  id ∉ deletingConversationIds store →
  id ∉ deletingConversationIds
         (deleteConversation host id switchConversationFn createNewConversationFn
            store).1.2.
Proof.
  intros Hfree. unfold deleteConversation.
  destruct (List.find _ (conversations (chat store))) as [conv|]; [|done].
  destruct (isDeletingConversation id store); [done|].
  destruct (conv_isPersisted conv); [destruct (deleteConversationData host id)|];
    cbn -[elem_of difference];
    repeat case_match; cbn -[elem_of difference];
    rewrite elem_of_difference, elem_of_singleton; by intros [_ ?].
Qed.

Lemma deleteConversation_releases_lock_witness :
  ("conv_a" ∉ deletingConversationIds (conversations_store ∅))
  ∧ ("conv_a" ∉ deletingConversationIds
                  (deleteConversation down_host "conv_a" switch_to start_afresh
                     (conversations_store ∅)).1.2).
Proof.
  assert (Hfree : "conv_a" ∉ deletingConversationIds (conversations_store ∅))
    by (change ("conv_a" ∉ (∅ : gset string)); apply not_elem_of_empty).
  split; [exact Hfree|].
  exact (deleteConversation_releases_lock down_host "conv_a" switch_to start_afresh
           (conversations_store ∅) Hfree).
Defined.

(** X21. Deleting a conversation that is in the list, is not being
    deleted and is not the current one: when it is not persisted, or the
    backend deletion resolves, [deleteConversation] returns [true] and
    the list is the old one without the conversations of that id, the
    others in their order; when the backend deletion is rejected it
    returns [false], the list is as it was and the error slot reports
    [DELETE_ERROR].  Messages, checkpoints and the current conversation
    are untouched, and the backend is asked only for a persisted
    conversation. *)
Theorem deleteConversation_of_another host id switchConversationFn
    createNewConversationFn store conv :
  List.find (λ c, String.eqb (conv_id c) id) (conversations (chat store)) = Some conv →
  id ∉ deletingConversationIds store →
  currentConversationId (chat store) ≠ Some id →
  let result :=
    deleteConversation host id switchConversationFn createNewConversationFn store in
  let after := chat result.1.2 in
  allMessages after = allMessages (chat store)
  ∧ checkpoints after = checkpoints (chat store)
  ∧ currentConversationId after = currentConversationId (chat store)
  ∧ result.2 = (if conv_isPersisted conv then [Call_deleteConversation id] else [])
  ∧ match (if conv_isPersisted conv then deleteConversationData host id
           else Js.Resolved ()) with
    | Js.Resolved _ =>
        result.1.1 = true
        ∧ conversations after
          = List.filter (λ c, negb (String.eqb (conv_id c) id))
              (conversations (chat store))
        ∧ Forall (λ c, conv_id c ≠ id) (conversations after)
        ∧ error after = error (chat store)
    | Js.Rejected err =>
        result.1.1 = false
        ∧ conversations after = conversations (chat store)
        ∧ error after
          = Some {| code := Js.or_else (Js.err_code err) "DELETE_ERROR";
                    message := Js.or_else (Js.err_message err)
                                 "Failed to delete conversation" |}
    end.
Proof.
  intros Hfind Hfree Hother result after. subst after result.
  unfold deleteConversation. rewrite Hfind.
  unfold isDeletingConversation. rewrite bool_decide_eq_false_2 by done.
  assert (Hgone : Forall (λ c, conv_id c ≠ id)
            (List.filter (λ c, negb (String.eqb (conv_id c) id))
               (conversations (chat store)))).
  { apply Forall_forall. intros c Hc. apply list_elem_of_In, filter_In in Hc as [_ Hc].
    apply negb_true_iff, String.eqb_neq in Hc. done. }
  destruct (conv_isPersisted conv); [destruct (deleteConversationData host id)|];
    cbn -[elem_of difference union];
    rewrite ?bool_decide_eq_false_2 by done; cbn -[elem_of difference union]; done.
Qed.

Lemma deleteConversation_of_another_witness :
  List.find (λ c, String.eqb (conv_id c) "conv_b")
    (conversations (chat (conversations_store ∅)))
  = Some (conversation "conv_b" true)
  ∧ (deleteConversation full_host "conv_b" switch_to start_afresh
       (conversations_store ∅)).1.1 = true
  ∧ conversations
      (chat (deleteConversation full_host "conv_b" switch_to start_afresh
               (conversations_store ∅)).1.2)
    = [conversation "conv_a" true].
Proof.
  split; [reflexivity|].
  destruct (deleteConversation_of_another full_host "conv_b" switch_to start_afresh
              (conversations_store ∅) (conversation "conv_b" true) eq_refl
              (not_elem_of_empty _) ltac:(discriminate))
    as (_ & _ & _ & _ & Hreturned & Hlist & _).
  split; [exact Hreturned | exact Hlist].
Defined.
End ConversationActionsFacts.

Section ConversationMetadataFacts.
Import ChatStore Extension ConversationActions MessageActions.
Import ConversationActionsRest Scenario Scenario2 Scenario3.

Lemma find_update_metadata id now n preview convs conv :
  List.find (λ c, bool_decide (Some (conv_id c) = id)) convs = Some conv →
  ∃ conv',
    List.find (λ c, bool_decide (Some (conv_id c) = id))
      (update_metadata id now n preview convs) = Some conv'
    ∧ conv_messageCount conv' = n
    ∧ conv_updatedAt conv' = now
    ∧ conv_preview conv' = match preview with
                           | Some p => Some p
                           | None => conv_preview conv
                           end.
Proof.
  induction convs as [|c rest IH]; simpl; [done|].
  destruct (bool_decide (Some (conv_id c) = id)) eqn:Hc; simpl.
  - intros [= <-]. rewrite Hc. by eexists.
  - rewrite Hc. apply IH.
Qed.

(** X22. When the host accepts the metadata requests,
    [updateConversationAfterMessage] leaves the current conversation of
    the list with [messageCount] equal to the length of the message list
    and [updatedAt] equal to the time read; its preview is the first 50
    characters of the last user message that is no function response, or
    the old preview when there is none.  The messages are not touched. *)
Theorem updateConversationAfterMessage_counts host isFunctionResponse now state conv :
  Js.truthy_opt (currentConversationId state) = true →
  List.find (λ c, bool_decide (Some (conv_id c) = currentConversationId state))
    (conversations state) = Some conv →
  (∀ id key value, setCustomMetadata host id key value = Js.Resolved ()) →
  let after := (updateConversationAfterMessage host isFunctionResponse now state).1 in
  allMessages after = allMessages state
  ∧ ∃ conv',
      List.find (λ c, bool_decide (Some (conv_id c) = currentConversationId after))
        (conversations after) = Some conv'
      ∧ conv_messageCount conv' = messageCount after
      ∧ conv_updatedAt conv' = now
      ∧ conv_preview conv'
        = match last_user_message isFunctionResponse (allMessages state) with
          | Some m => Some (Js.slice_to 50 (msg_content m))
          | None => conv_preview conv
          end.
Proof.
  intros Hcurrent Hfind Haccepts after. subst after.
  unfold updateConversationAfterMessage. rewrite Hcurrent, Hfind. cbn [negb].
  rewrite !Haccepts.
  destruct (last_user_message isFunctionResponse (allMessages state)) as [m|];
    rewrite ?Haccepts; cbn [fst]; (split; [done|]).
  - destruct (find_update_metadata (currentConversationId state) now
                (messageCount state) (Some (Js.slice_to 50 (msg_content m)))
                _ _ Hfind) as (conv' & H1 & H2 & H3 & H4).
    by exists conv'.
  - destruct (find_update_metadata (currentConversationId state) now
                (messageCount state) None _ _ Hfind) as (conv' & H1 & H2 & H3 & H4).
    by exists conv'.
Qed.

Lemma updateConversationAfterMessage_counts_witness :
  List.find (λ c, bool_decide (Some (conv_id c) = currentConversationId two_conversations))
    (conversations two_conversations) = Some (conversation "conv_a" true)
  ∧ allMessages
      (updateConversationAfterMessage full_host no_function_response 77
         two_conversations).1
    = allMessages two_conversations
  ∧ ∃ conv',
      List.find (λ c, bool_decide (Some (conv_id c) = Some "conv_a"))
        (conversations
           (updateConversationAfterMessage full_host no_function_response 77
              two_conversations).1) = Some conv'
      ∧ conv_messageCount conv' = 2
      ∧ conv_updatedAt conv' = 77
      ∧ conv_preview conv' = Some "question".
Proof.
  split; [reflexivity|].
  exact (updateConversationAfterMessage_counts full_host no_function_response 77
           two_conversations (conversation "conv_a" true) eq_refl eq_refl
           (λ _ _ _, eq_refl)).
Defined.

End ConversationMetadataFacts.

(** ** conversationActions.ts: creating and listing *)
Section ConversationListFacts.
Import ChatStore Extension ConversationActions MessageActions.
Import ConversationActionsRest Scenario Scenario2 Scenario3.






Lemma load_summaries_spec host now tick ids :
  let r := load_summaries host now tick ids in
  map conv_id r.1 = ids
  ∧ Forall (λ c, conv_isPersisted c = true) r.1
  ∧ r.2 = map Call_getConversationMetadata ids.
Proof.
  revert tick. induction ids as [|id rest IH]; intros tick; [done|].
  cbn [load_summaries].
  destruct (match getConversationMetadata host id with
            | Js.Resolved metadata => summary_of_metadata now tick id metadata
            | Js.Rejected _ => summary_of_failure now tick id
            end) as [summary tick'] eqn:Hsummary.
  assert (Hhead : conv_id summary = id ∧ conv_isPersisted summary = true).
  { destruct (getConversationMetadata host id) as [metadata|err].
    - unfold summary_of_metadata in Hsummary. repeat case_match; by simplify_eq.
    - unfold summary_of_failure in Hsummary. by simplify_eq. }
  destruct Hhead as [Hid Hpersisted].
  destruct (IH tick') as (H1 & H2 & H3).
  destruct (load_summaries host now tick' rest) as [summaries sent]. simpl in *.
  split; [by f_equal|]. split; [by constructor | by f_equal].
Qed.

(** X25. [loadConversations] always ends with [isLoadingConversations]
    lowered.  When the list request resolves with [ids], the list becomes
    the conversations that were not persisted, in their order, followed
    by one persisted summary per id, in the order of [ids], whether or
    not the metadata of an id could be fetched; one metadata request is
    sent per id.  When the list request is rejected the conversations are
    kept and the error slot reports [LOAD_ERROR]. *)
Theorem loadConversations_outcome host now store :
  let result := loadConversations host now store in
  isLoadingConversations result.1 = false
  ∧ deletingConversationIds result.1 = deletingConversationIds store
  ∧ allMessages (chat result.1) = allMessages (chat store)
  ∧ match listConversations host with
    | Js.Resolved ids =>
        ∃ summaries,
          conversations (chat result.1)
          = List.filter (λ c, negb (conv_isPersisted c)) (conversations (chat store))
            ++ summaries
          ∧ map conv_id summaries = ids
          ∧ Forall (λ c, conv_isPersisted c = true) summaries
          ∧ result.2 = Call_listConversations :: map Call_getConversationMetadata ids
          ∧ error (chat result.1) = error (chat store)
    | Js.Rejected err =>
        conversations (chat result.1) = conversations (chat store)
        ∧ result.2 = [Call_listConversations]
        ∧ error (chat result.1)
          = Some {| code := Js.or_else (Js.err_code err) "LOAD_ERROR";
                    message := Js.or_else (Js.err_message err)
                                 "Failed to load conversations" |}
    end.
Proof.
  intros result. subst result. unfold loadConversations.
  destruct (listConversations host) as [ids|err]; [|done].
  destruct (load_summaries_spec host now 0 ids) as (H1 & H2 & H3).
  destruct (load_summaries host now 0 ids) as [summaries sent]. simpl in *.
  repeat (split; [done|]). exists summaries. by rewrite H3.
Qed.

End ConversationListFacts.

(** ** utils.ts *)
Section UtilsFacts.
Import ChatStore Utils Scenario Scenario2.

Lemma findIndex_from_spec {A} (p : A → bool) (i : Z) (l : list A) :
  (JsArray.findIndex_from p i l = -1 ∧ Forall (λ x, p x = false) l)
  ∨ (∃ k x,
       JsArray.findIndex_from p i l = i + Z.of_nat k
       ∧ l !! k = Some x
       ∧ p x = true
       ∧ ∀ j y, (j < k)%nat → l !! j = Some y → p y = false).
Proof.
  revert i. induction l as [|a l IH]; intros i; simpl.
  - left. by split.
  - destruct (p a) eqn:Ha.
    + right. exists 0%nat, a. split; [lia|]. split; [done|]. split; [done|]. lia.
    + destruct (IH (i + 1)) as [[-> Hnone] | (k & x & -> & Hx & Hpx & Hfirst)].
      * left. split; [done | by constructor].
      * right. exists (S k), x. split; [lia|]. split; [done|]. split; [done|].
        intros [|j] y Hj; simpl; [by intros [= <-] | apply Hfirst; lia].
Qed.

Lemma sublist_lookup_later {A} (l1 l2 : list A) i x :
  l1 `sublist_of` l2 → l1 !! i = Some x → ∃ j, (i ≤ j)%nat ∧ l2 !! j = Some x.
Proof.
  intros Hsub. revert i. induction Hsub as [|y l1 l2 _ IH|y l1 l2 _ IH]; intros i.
  - done.
  - destruct i as [|i]; simpl.
    + intros [= ->]. exists 0%nat. by split.
    + intros Hi. destruct (IH _ Hi) as (j & Hj & Hx). exists (S j). split; [lia | done].
  - intros Hi. destruct (IH _ Hi) as (j & Hj & Hx). exists (S j). split; [lia | done].
Qed.

Lemma getActualIndex_first_with_id_aux displayIndex (displayMessages allMessages : list Message) :
  let r := getActualIndex displayIndex displayMessages allMessages in
  (r = -1
   ∧ (displayIndex < 0
      ∨ Z.of_nat (length displayMessages) ≤ displayIndex
      ∨ ∃ shown,
          displayMessages !! Z.to_nat displayIndex = Some shown
          ∧ Forall (λ m, msg_id m ≠ msg_id shown) allMessages))
  ∨ (∃ shown found,
       displayMessages !! Z.to_nat displayIndex = Some shown
       ∧ 0 ≤ r < Z.of_nat (length allMessages)
       ∧ allMessages !! Z.to_nat r = Some found
       ∧ msg_id found = msg_id shown
       ∧ ∀ j earlier,
           (j < Z.to_nat r)%nat → allMessages !! j = Some earlier →
           msg_id earlier ≠ msg_id shown).
Proof.
  intros r. subst r. unfold getActualIndex.
  destruct (displayIndex <? 0) eqn:Hneg; simpl.
  { left. split; [done|]. left. by apply Z.ltb_lt. }
  destruct (Z.of_nat (length displayMessages) <=? displayIndex) eqn:Hbig.
  { left. split; [done|]. right. left. by apply Z.leb_le. }
  apply Z.ltb_ge in Hneg. apply Z.leb_gt in Hbig.
  destruct (lookup_lt_is_Some_2 displayMessages (Z.to_nat displayIndex)) as [shown Hshown];
    [lia|].
  rewrite Hshown. unfold JsArray.findIndex.
  destruct (findIndex_from_spec (λ m, String.eqb (msg_id m) (msg_id shown)) 0 allMessages)
    as [[-> Hnone] | (k & found & -> & Hfound & Hid & Hfirst)].
  - left. split; [done|]. right. right. exists shown. split; [done|].
    eapply Forall_impl; [exact Hnone|]. intros m Hm. by apply String.eqb_neq.
  - right. exists shown, found. split; [done|].
    apply lookup_lt_Some in Hfound as Hk. split; [lia|].
    replace (Z.to_nat (0 + Z.of_nat k)) with k by lia.
    split; [done|]. split; [by apply String.eqb_eq|].
    intros j earlier Hj Hearlier. apply String.eqb_neq. by eapply Hfirst.
Qed.



(** X27. When the shown messages are a selection of [allMessages] in
    their order (what filtering gives) and no two messages share an id,
    [getActualIndex] of a valid shown index never answers [-1]: it
    answers the index at which that very message sits in [allMessages],
    which is at least the shown index. *)
Theorem getActualIndex_of_selection displayIndex (displayMessages allMessages : list Message) :
  displayMessages `sublist_of` allMessages →
  NoDup (map msg_id allMessages) →
  0 ≤ displayIndex < Z.of_nat (length displayMessages) →
  let r := getActualIndex displayIndex displayMessages allMessages in
  displayIndex ≤ r < Z.of_nat (length allMessages)
  ∧ allMessages !! Z.to_nat r = displayMessages !! Z.to_nat displayIndex.
Proof.
  intros Hsub Hids Hrange r.
  destruct (lookup_lt_is_Some_2 displayMessages (Z.to_nat displayIndex)) as [shown Hshown];
    [lia|].
  destruct (sublist_lookup_later _ _ _ _ Hsub Hshown) as (j & Hj & Hat).
  assert (Hsame : ∀ k m, allMessages !! k = Some m → msg_id m = msg_id shown → k = j).
  { intros k m Hk Hid. apply (NoDup_lookup _ _ _ (msg_id shown) Hids).
    - by rewrite list_lookup_fmap, Hk, <- Hid.
    - by rewrite list_lookup_fmap, Hat. }
  destruct (getActualIndex_first_with_id_aux displayIndex displayMessages allMessages)
    as [[Hminus [? | [? | (shown' & Hshown' & Hnone)]]]
       | (shown' & found & Hshown' & Hr & Hfound & Hid & _)]; try lia.
  - exfalso. rewrite Hshown in Hshown'. injection Hshown' as <-.
    rewrite Forall_forall in Hnone. apply (Hnone shown); [|done].
    by eapply list_elem_of_lookup_2.
  - rewrite Hshown in Hshown'. injection Hshown' as <-.
    fold r in Hr, Hfound. pose proof (Hsame _ _ Hfound Hid) as Hrj.
    split; [lia|]. rewrite Hshown, Hrj. exact Hat.
Qed.

Lemma getActualIndex_of_selection_witness :
  [text_message "u0" user "question"; text_message "u2" user "tool result"]
    `sublist_of` allMessages answered_then_tool
  ∧ allMessages answered_then_tool
    !! Z.to_nat
         (getActualIndex 1
            [text_message "u0" user "question"; text_message "u2" user "tool result"]
            (allMessages answered_then_tool))
    = Some (text_message "u2" user "tool result").
Proof.
  assert (Hsub :
    [text_message "u0" user "question"; text_message "u2" user "tool result"]
      `sublist_of` allMessages answered_then_tool)
    by (apply sublist_skip, sublist_cons, sublist_skip, sublist_nil).
  split; [exact Hsub|].
  assert (Hids : NoDup (map msg_id (allMessages answered_then_tool))).
  { apply (bool_decide_unpack _). by vm_compute. }
  destruct (getActualIndex_of_selection 1 _ _ Hsub Hids
              ltac:(split; [discriminate | reflexivity])) as [_ Hat].
  exact Hat.
Defined.

(** X28. [formatTime] words an age by what it is at least: under a
    minute (a timestamp in the future too) "just now"; then whole minutes
    from 1 to 59, whole hours from 1 to 23, whole days from 1 to 6, each
    count rounded down; from 7 days on the date itself.  The language is
    the one of the settings, [zh-CN] when none is set. *)
Theorem formatTime_ranges translate toLocaleDateString language now timestamp :
  let diff := now - timestamp in
  let lang := Js.or_else language "zh-CN" in
  let shown := formatTime translate toLocaleDateString language now timestamp in
  (diff < minute
   ∧ shown = translate lang "stores.chatStore.relativeTime.justNow" None)
  ∨ (∃ n, 1 ≤ n ≤ 59 ∧ n * minute ≤ diff < (n + 1) * minute
          ∧ shown = translate lang "stores.chatStore.relativeTime.minutesAgo"
                      (Some ("minutes", n)))
  ∨ (∃ n, 1 ≤ n ≤ 23 ∧ n * hour ≤ diff < (n + 1) * hour
          ∧ shown = translate lang "stores.chatStore.relativeTime.hoursAgo"
                      (Some ("hours", n)))
  ∨ (∃ n, 1 ≤ n ≤ 6 ∧ n * day ≤ diff < (n + 1) * day
          ∧ shown = translate lang "stores.chatStore.relativeTime.daysAgo"
                      (Some ("days", n)))
  ∨ (7 * day ≤ diff ∧ shown = toLocaleDateString timestamp).
Proof.
  intros diff lang shown. subst shown. unfold formatTime. fold diff. fold lang.
  cbv delta [minute hour day].
  destruct (Z.ltb_spec diff (60 * 1000)); [left; split; [lia | done]|].
  right. destruct (Z.ltb_spec diff (60 * (60 * 1000))).
  { left. exists (diff / (60 * 1000)).
    split; [|split; [|done]]; Z.div_mod_to_equations; lia. }
  right. destruct (Z.ltb_spec diff (24 * (60 * (60 * 1000)))).
  { left. exists (diff / (60 * (60 * 1000))).
    split; [|split; [|done]]; Z.div_mod_to_equations; lia. }
  right. destruct (Z.ltb_spec diff (7 * (24 * (60 * (60 * 1000))))).
  { left. exists (diff / (24 * (60 * (60 * 1000)))).
    split; [|split; [|done]]; Z.div_mod_to_equations; lia. }
  right. split; [lia | done].
Qed.
End UtilsFacts.

(** ** engines/factory.ts *)
Section EngineFactoryFacts.
Import EngineFactory.


Lemma typed_createRemovalEngine type f : typed f → typed (createRemovalEngine type f).2.
Proof.
  intros Htyped. unfold createRemovalEngine.
  destruct (JsMap.get type (engineCache f)) as [cached|] eqn:Hcached; [done|].
  assert (Hset : ∀ engine, engine_type engine = type →
            typed {| engineCache := JsMap.set type engine (engineCache f);
                     constructed := S (constructed f) |}).
  { intros engine Hengine type' engine'. simpl.
    destruct (decide (type' = type)) as [->|Hne].
    - rewrite JsMap_get_set_eq. by intros [= <-].
    - rewrite JsMap_get_set_ne by done. apply Htyped. }
  destruct (String.eqb_spec type "transformers") as [->|Ht]; [by apply Hset|].
  destruct (String.eqb_spec type "gemini") as [->|Hg]; [by apply Hset | done].
Qed.



(** X30. [getDefaultEngineType] prefers the local engine and falls back
    without looking: when both availability checks resolve it answers
    [transformers] if that engine is available and [gemini] otherwise,
    whether or not the Gemini engine is available; when a check is
    rejected, so is the call. *)
Theorem getDefaultEngineType_prefers_transformers isAvailable f :
  ∃ transformersEngine,
    (createRemovalEngine "transformers" f).1 = Some transformersEngine
    ∧ match isAvailable transformersEngine with
      | Js.Rejected err => (getDefaultEngineType isAvailable f).1 = Js.Rejected err
      | Js.Resolved available =>
          ∃ geminiEngine,
            (createRemovalEngine "gemini" (createRemovalEngine "transformers" f).2).1
            = Some geminiEngine
            ∧ match isAvailable geminiEngine with
              | Js.Rejected err =>
                  (getDefaultEngineType isAvailable f).1 = Js.Rejected err
              | Js.Resolved _ =>
                  (getDefaultEngineType isAvailable f).1
                  = Js.Resolved (if available then "transformers" else "gemini")
              end
      end.
Proof.
  assert (Hmade : ∀ type g,
    String.eqb type "transformers" || String.eqb type "gemini" = true →
    is_Some (createRemovalEngine type g).1).
  { intros type g Hknown. unfold createRemovalEngine.
    destruct (JsMap.get type (engineCache g)); [by eexists|].
    destruct (String.eqb type "transformers"); [by eexists|].
    destruct (String.eqb type "gemini"); [by eexists | done]. }
  unfold getDefaultEngineType, getAvailableEngines.
  pose proof (Hmade "transformers" f eq_refl) as Ht.
  destruct (createRemovalEngine "transformers" f) as [[transformersEngine|] f1];
    [|by destruct Ht].
  exists transformersEngine. split; [done|]. cbn [fst snd].
  destruct (isAvailable transformersEngine) as [available|err]; [|done].
  pose proof (Hmade "gemini" f1 eq_refl) as Hg.
  destruct (createRemovalEngine "gemini" f1) as [[geminiEngine|] f2];
    [|by destruct Hg].
  exists geminiEngine. split; [done|]. cbn [fst snd].
  destruct (isAvailable geminiEngine) as [geminiAvailable|err]; [|done].
  cbn. by destruct available.
Qed.

(** With neither engine available the default is still [gemini]. *)
Lemma getDefaultEngineType_nothing_available :
  (getDefaultEngineType (λ _, Js.Resolved false) no_engines).1 = Js.Resolved "gemini".
Proof. reflexivity. Qed.
End EngineFactoryFacts.
